(** * A model of the ComfyUI client (src/comfyui/comfyui.py)

    The client holds a JSON job template, exposes five validated accessors
    over it, and wraps three HTTP calls: submit, query and download.  The
    development embeds the Python code as executable Rocq functions:

    - Python values that come out of [json.loads] are the inductive [json];
      a [dict] is an association list in insertion order;
    - a Python [str] is a list of Unicode code points;
    - exceptions are an error type, and the effects of a method (requests
      sent, records logged, the state of the outside world) are threaded
      through a small monad that keeps them when an exception is raised. *)

From Stdlib Require Import List ZArith NArith Bool Lia String Ascii.
From Stdlib.Strings Require Import Byte.
Import ListNotations.

Set Implicit Arguments.

(** ** Python strings *)

(** A [str] is a sequence of code points. *)
Definition pystr := list N.

(** The string literal of the source, as code points. *)
Definition lit (s : string) : pystr :=
  map N_of_ascii (list_ascii_of_string s).

Arguments lit s : simpl never.

Fixpoint str_eqb (a b : pystr) : bool :=
  match a, b with
  | [], [] => true
  | x :: a', y :: b' => N.eqb x y && str_eqb a' b'
  | _, _ => false
  end.

(** [a] is a prefix of [b]. *)
Fixpoint str_prefix (a b : pystr) : bool :=
  match a, b with
  | [], _ => true
  | x :: a', y :: b' => N.eqb x y && str_prefix a' b'
  | _ :: _, [] => false
  end.

(** [a in b] for two strings: [a] occurs in [b] as a substring. *)
Fixpoint str_contains (a b : pystr) : bool :=
  str_prefix a b ||
  match b with
  | [] => false
  | _ :: b' => str_contains a b'
  end.

(** The characters [str.strip()] removes when called without argument:
    CPython's [Py_UNICODE_ISSPACE]. *)
Definition isspace (c : N) : bool :=
  ((9 <=? c) && (c <=? 13) ||
   (28 <=? c) && (c <=? 32) ||
   (c =? 133) || (c =? 160) || (c =? 5760) ||
   (8192 <=? c) && (c <=? 8202) ||
   (c =? 8232) || (c =? 8233) || (c =? 8239) || (c =? 8287) ||
   (c =? 12288))%N.

Fixpoint lstrip (s : pystr) : pystr :=
  match s with
  | [] => []
  | c :: s' => if isspace c then lstrip s' else s
  end.

Definition rstrip (s : pystr) : pystr := rev (lstrip (rev s)).

(** [s.strip()] *)
Definition strip (s : pystr) : pystr := rstrip (lstrip s).

(** ** Python values read from JSON *)

#[warnings="-register-all"]
Inductive json : Type :=
| JNull
| JBool (b : bool)
| JInt (z : Z)
| JFloat (bits : N)          (* the IEEE-754 binary64 representation *)
| JStr (s : pystr)
| JList (l : list json)
| JDict (d : list (pystr * json)).

Definition pydict := list (pystr * json).

(** Exceptions, by class. *)
Inductive exn : Type :=
| ValueError
| KeyError
| TypeError
| AttributeError
| IndexError
| HTTPStatusError (status : Z)
| RequestError
| JSONDecodeError
| UnicodeDecodeError.

Inductive result (A : Type) : Type :=
| Ok (a : A)
| Raise (e : exn).
Arguments Ok {A} a.
Arguments Raise {A} e.

Definition rbind {A B} (r : result A) (f : A -> result B) : result B :=
  match r with
  | Ok a => f a
  | Raise e => Raise e
  end.

(** *** Dictionaries *)

Fixpoint dict_get (d : pydict) (k : pystr) : option json :=
  match d with
  | [] => None
  | (k', v) :: d' => if str_eqb k' k then Some v else dict_get d' k
  end.

(** [d[k] = v]: an existing key keeps its position, a new one goes last. *)
Fixpoint dict_set (d : pydict) (k : pystr) (v : json) : pydict :=
  match d with
  | [] => [(k, v)]
  | (k', v') :: d' =>
      if str_eqb k' k then (k', v) :: d' else (k', v') :: dict_set d' k v
  end.

Definition dict_keys (d : pydict) : list pystr := map fst d.

Definition dict_has (d : pydict) (k : pystr) : bool :=
  match dict_get d k with Some _ => true | None => false end.

(** A Python dict holds each key once. *)
Definition dict_wf (d : pydict) : Prop := NoDup (dict_keys d).

(** *** Operators on values *)

(** Truth value of an object, as [not x] and [if x] test it. *)
Definition truthy (j : json) : bool :=
  match j with
  | JNull => false
  | JBool b => b
  | JInt z => negb (Z.eqb z 0)
  | JFloat bits => negb (N.eqb (N.land bits 9223372036854775807) 0)
  | JStr s => match s with [] => false | _ => true end
  | JList l => match l with [] => false | _ => true end
  | JDict d => match d with [] => false | _ => true end
  end.

Definition is_str (k : pystr) (j : json) : bool :=
  match j with
  | JStr s => str_eqb s k
  | _ => false
  end.

(** ["k" in c] for a string literal [k]. *)
Definition contains (k : pystr) (c : json) : result bool :=
  match c with
  | JDict d => Ok (dict_has d k)
  | JList l => Ok (existsb (is_str k) l)
  | JStr s => Ok (str_contains k s)
  | _ => Raise TypeError
  end.

(** Index into a sequence of length [n]: negative indices count from the
    end. *)
Definition seq_index (n : nat) (i : Z) : option nat :=
  let i' := if (i <? 0)%Z then (i + Z.of_nat n)%Z else i in
  if ((0 <=? i') && (i' <? Z.of_nat n))%Z then Some (Z.to_nat i') else None.

Definition as_index (k : json) : option Z :=
  match k with
  | JInt i => Some i
  | JBool b => Some (if b then 1%Z else 0%Z)
  | _ => None
  end.

(** [c[k]] *)
Definition getitem (c : json) (k : json) : result json :=
  match c with
  | JDict d =>
      match k with
      | JStr s => match dict_get d s with Some v => Ok v | None => Raise KeyError end
      | JList _ | JDict _ => Raise TypeError
      | _ => Raise KeyError
      end
  | JList l =>
      match as_index k with
      | Some i =>
          match seq_index (List.length l) i with
          | Some n => match nth_error l n with Some v => Ok v | None => Raise IndexError end
          | None => Raise IndexError
          end
      | None => Raise TypeError
      end
  | JStr s =>
      match as_index k with
      | Some i =>
          match seq_index (List.length s) i with
          | Some n => match nth_error s n with Some ch => Ok (JStr [ch]) | None => Raise IndexError end
          | None => Raise IndexError
          end
      | None => Raise TypeError
      end
  | _ => Raise TypeError
  end.

(** The items [for x in c] and [list += c] go through. *)
Definition iter (c : json) : result (list json) :=
  match c with
  | JDict d => Ok (map JStr (dict_keys d))
  | JList l => Ok l
  | JStr s => Ok (map (fun ch => JStr [ch]) s)
  | _ => Raise TypeError
  end.

(** [c.get(k, default)]: only a dict has the method. *)
Definition get (c : json) (k : pystr) (default : json) : result json :=
  match c with
  | JDict d => Ok (match dict_get d k with Some v => v | None => default end)
  | _ => Raise AttributeError
  end.

(** [c[k] = v] *)
Definition setitem (c : json) (k : pystr) (v : json) : result json :=
  match c with
  | JDict d => Ok (JDict (dict_set d k v))
  | _ => Raise TypeError
  end.

(** ** The outside world: HTTP and logging *)

Inductive http_method : Type := GET | POST.

(** What the client hands to [httpx.get] and [httpx.post]. *)
Record Request : Type := {
  method : http_method;
  url : pystr;
  params : list (pystr * json);
  json_body : option json
}.

(** What comes back: the status line, the body as [response.read()] gives
    it, and what [response.json()], that is [json.loads] on the body, makes
    of it: [json_value] is the value it decodes to, [None] when it raises;
    [body_is_text] tells the two ways it raises apart: the bytes are
    Unicode text that is not JSON, or they are not the encoding of any
    text. *)
Record Response : Type := {
  status_code : Z;
  content : list byte;
  json_value : option json;
  body_is_text : bool
}.

(** The exception of a failed [response.json()]. *)
Definition decode_error (r : Response) : exn :=
  if body_is_text r then JSONDecodeError else UnicodeDecodeError.

(** [httpx.post(url=u, json=body)] and [httpx.get(url=u, params=ps)] *)
Definition post_request (u : pystr) (body : json) : Request :=
  {| method := POST; url := u; params := []; json_body := Some body |}.

Definition get_request (u : pystr) (ps : list (pystr * json)) : Request :=
  {| method := GET; url := u; params := ps; json_body := None |}.

Arguments post_request u body : simpl never.
Arguments get_request u ps : simpl never.

(** [response.is_success] *)
Definition is_success (r : Response) : bool :=
  ((200 <=? status_code r) && (status_code r <=? 299))%Z.

Inductive level : Type := DEBUG | WARNING.

(** One constructor per logging call of the module, holding the values the
    message interpolates. *)
Inductive message : Type :=
| Init_entry
| Submit_entry
| Submit_client_id (client_id : pystr)
| Submit_response (status : Z) (text : list byte)
| Submit_response_data (response_data : json)
| Submit_no_prompt_id (status : Z)
| Submit_exit (client_id : pystr) (status : Z) (prompt_id : json)
| Query_entry (prompt_id : pystr)
| Query_response (status : Z) (text : list byte)
| Query_keys (keys : list pystr)
| Query_not_in (prompt_id : pystr) (keys : list pystr)
| Download_entry (folder_type subfolder filename : json)
| Download_status (status : Z)
| Download_exit (len : nat)
| Outputs_key (key : json)
| Outputs_no_images (key : json)
| Outputs_no_filename
| Outputs_exit (len : nat).

(** What a method does that can be seen from outside, in program order. *)
Inductive event : Type :=
| Log (lvl : level) (msg : message)
| Http (rq : Request).

Definition is_warning (e : event) : bool :=
  match e with Log WARNING _ => true | _ => false end.

Definition is_http (e : event) : bool :=
  match e with Http _ => true | _ => false end.

(** The records logged at WARNING level, and the requests sent. *)
Definition warnings (tr : list event) : list event := filter is_warning tr.
Definition requests (tr : list event) : list event := filter is_http tr.

(** ** The effects of a method *)

(** A run ends with a value or a raised exception; either way the requests
    sent and the records logged so far stay, and the world has moved on. *)
Record outcome (Env A : Type) : Type := Outcome {
  value : result A;
  world : Env;
  trace : list event
}.

Definition M (Env A : Type) : Type := Env -> outcome Env A.

Section Effects.
Variable Env : Type.

Definition ret {A} (a : A) : M Env A :=
  fun w => Outcome (Ok a) w [].

Definition raise {A} (e : exn) : M Env A :=
  fun w => Outcome (Raise e) w [].

Definition bind {A B} (m : M Env A) (f : A -> M Env B) : M Env B :=
  fun w =>
    match m w with
    | Outcome (Ok a) w1 tr1 =>
        match f a w1 with
        | Outcome r w2 tr2 => Outcome r w2 (tr1 ++ tr2)
        end
    | Outcome (Raise e) w1 tr1 => Outcome (Raise e) w1 tr1
    end.

(** A computation without effects: an operator on values. *)
Definition lift {A} (r : result A) : M Env A :=
  fun w => Outcome r w [].

(** [logging.debug(...)] and [logging.warning(...)] *)
Definition log (lvl : level) (msg : message) : M Env unit :=
  fun w => Outcome (Ok tt) w [Log lvl msg].
End Effects.

Arguments ret {Env A} a.
Arguments raise {Env A} e.
Arguments lift {Env A} r.
Arguments log {Env} lvl msg.

Declare Scope py_scope.
Delimit Scope py_scope with py.
Notation "x <- m ;; k" := (bind m (fun x => k))
  (at level 61, m at next level, right associativity) : py_scope.
Notation "m ;; k" := (bind m (fun _ => k))
  (at level 61, right associativity) : py_scope.
Notation "' pat <- m ;; k" := (bind m (fun x => match x with pat => k end))
  (at level 61, pat pattern, m at next level, right associativity) : py_scope.
Open Scope py_scope.

(** [for x in xs: s = body(s, x)] *)
Fixpoint for_each {Env A S} (xs : list A) (body : S -> A -> M Env S) (s : S)
  : M Env S :=
  match xs with
  | [] => ret s
  | x :: xs' => s' <- body s x ;; for_each xs' body s'
  end.

(** ** The client *)

Record ComfyUI : Type := {
  workflow : json;
  endpoint : pystr
}.

(** One element of the list [get_job_outputs] returns:
    [(folder_type, subfolder, filename, image)]. *)
Definition output : Type := (json * json * json * list byte)%type.

(** The request [download_output] sends. *)
Definition view_request (self : ComfyUI) (filename subfolder folder_type : json)
    : Request :=
  get_request (endpoint self ++ lit "view")
    [(lit "filename", filename); (lit "subfolder", subfolder);
     (lit "type", folder_type)].

Arguments view_request self filename subfolder folder_type : simpl never.

Section Client.
Variable Env : Type.

(** [httpx] sending one request: a response, or a transport error raised
    before any response arrived. *)
Variable httpx_send : Request -> Env -> result Response * Env.

(** [str(uuid.uuid4())] *)
Variable uuid4 : Env -> pystr * Env.

Definition httpx_request (rq : Request) : M Env Response :=
  fun w => let (r, w') := httpx_send rq w in Outcome r w' [Http rq].

Definition httpx_post (u : pystr) (body : json) : M Env Response :=
  httpx_request (post_request u body).

Definition httpx_get (u : pystr) (ps : list (pystr * json)) : M Env Response :=
  httpx_request (get_request u ps).

Definition new_uuid : M Env pystr :=
  fun w => let (s, w') := uuid4 w in Outcome (Ok s) w' [].

(** [response.raise_for_status()] *)
Definition raise_for_status (r : Response) : M Env unit :=
  if is_success r then ret tt else raise (HTTPStatusError (status_code r)).

(** [response.json()] *)
Definition response_json (r : Response) : M Env json :=
  match json_value r with
  | Some j => ret j
  | None => raise (decode_error r)
  end.

(** [history.keys()] *)
Definition keys (j : json) : result (list pystr) :=
  match j with
  | JDict d => Ok (dict_keys d)
  | _ => Raise AttributeError
  end.

Definition submit_job (self : ComfyUI) : M Env json :=
  log DEBUG Submit_entry ;;
  client_id <- new_uuid ;;
  log DEBUG (Submit_client_id client_id) ;;
  let job := JDict [(lit "prompt", workflow self);
                    (lit "client_id", JStr client_id)] in
  response <- httpx_post (endpoint self ++ lit "prompt") job ;;
  log DEBUG (Submit_response (status_code response) (content response)) ;;
  raise_for_status response ;;
  response_data <- response_json response ;;
  log DEBUG (Submit_response_data response_data) ;;
  prompt_id <- lift (get response_data (lit "prompt_id") (JStr (lit ""))) ;;
  (if negb (truthy prompt_id)
   then log WARNING (Submit_no_prompt_id (status_code response))
   else ret tt) ;;
  log DEBUG (Submit_exit client_id (status_code response) prompt_id) ;;
  ret prompt_id.

Definition query_job (self : ComfyUI) (prompt_id : pystr) : M Env json :=
  log DEBUG (Query_entry prompt_id) ;;
  response <- httpx_get (endpoint self ++ lit "history/" ++ prompt_id) [] ;;
  log DEBUG (Query_response (status_code response) (content response)) ;;
  raise_for_status response ;;
  history <- response_json response ;;
  ks <- lift (keys history) ;;
  log DEBUG (Query_keys ks) ;;
  found <- lift (contains prompt_id history) ;;
  if found then
    lift (getitem history (JStr prompt_id))
  else
    ks' <- lift (keys history) ;;
    log DEBUG (Query_not_in prompt_id ks') ;;
    raise KeyError.

Definition download_output (self : ComfyUI)
    (filename subfolder folder_type : json) : M Env (list byte) :=
  log DEBUG (Download_entry folder_type subfolder filename) ;;
  response <- httpx_request (view_request self filename subfolder folder_type) ;;
  log DEBUG (Download_status (status_code response)) ;;
  raise_for_status response ;;
  let data := content response in
  log DEBUG (Download_exit (List.length data)) ;;
  ret data.

(** The body of the first loop of [get_job_outputs]. *)
Definition collect_images (history : json) (image_dicts : list json)
    (key : json) : M Env (list json) :=
  log DEBUG (Outputs_key key) ;;
  outputs <- lift (getitem history (JStr (lit "outputs"))) ;;
  node <- lift (getitem outputs key) ;;
  has_images <- lift (contains (lit "images") node) ;;
  if has_images then
    outputs <- lift (getitem history (JStr (lit "outputs"))) ;;
    node <- lift (getitem outputs key) ;;
    images <- lift (getitem node (JStr (lit "images"))) ;;
    items <- lift (iter images) ;;
    ret (image_dicts ++ items)
  else
    log WARNING (Outputs_no_images key) ;;
    ret image_dicts.

(** The three assignments inside the [try] of the second loop. *)
Definition image_fields (image_dict : json) : result (json * json * json) :=
  rbind (getitem image_dict (JStr (lit "filename"))) (fun filename =>
  rbind (get image_dict (lit "subfolder") (JStr (lit ""))) (fun subfolder =>
  rbind (get image_dict (lit "type") (JStr (lit "output"))) (fun folder_type =>
  Ok (filename, subfolder, folder_type)))).

(** The body of the second loop: [except KeyError] logs and goes on to
    the next image, any other exception leaves the method. *)
Definition fetch_image (self : ComfyUI) (output_data : list output)
    (image_dict : json) : M Env (list output) :=
  match image_fields image_dict with
  | Raise KeyError =>
      log WARNING Outputs_no_filename ;;
      ret output_data
  | Raise e => raise e
  | Ok (filename, subfolder, folder_type) =>
      data <- download_output self filename subfolder folder_type ;;
      ret (output_data ++ [(folder_type, subfolder, filename, data)])
  end.

Definition get_job_outputs (self : ComfyUI) (history : json)
    : M Env (list output) :=
  has_outputs <- lift (contains (lit "outputs") history) ;;
  if negb has_outputs then raise ValueError
  else
    outputs <- lift (getitem history (JStr (lit "outputs"))) ;;
    ks <- lift (iter outputs) ;;
    image_dicts <- for_each ks (collect_images history) [] ;;
    output_data <- for_each image_dicts (fetch_image self) [] ;;
    log DEBUG (Outputs_exit (List.length output_data)) ;;
    ret output_data.
End Client.

Arguments submit_job {Env} httpx_send uuid4 self : simpl never.
Arguments query_job {Env} httpx_send self prompt_id : simpl never.
Arguments download_output {Env} httpx_send self filename subfolder folder_type
  : simpl never.
Arguments fetch_image {Env} httpx_send self output_data image_dict : simpl never.
Arguments collect_images {Env} history image_dicts key : simpl never.
Arguments get_job_outputs {Env} httpx_send self history : simpl never.

(** ** The accessors of the job template *)

(** A property access either returns a value or raises; a property
    assignment mutates the object or raises, and the object it leaves is
    part of what it returns. *)
Definition setter_result : Type := (result unit * ComfyUI)%type.

Section Accessors.
(** The names [default_workflow.py] exports: four node indices and the
    template, here as [json.loads] returns it. *)
Variables EMPTY_INDEX KSAMPLER_INDEX : pystr.
Variables POSITIVE_PROMPT_INDEX NEGATIVE_PROMPT_INDEX : pystr.
Variable DEFAULT_WORKFLOW : json.

Definition init {Env} : M Env ComfyUI :=
  log DEBUG Init_entry ;;
  ret {| workflow := DEFAULT_WORKFLOW;
         endpoint := lit "http://127.0.0.1:8188/" |}.

(** [self.workflow[index]["inputs"][field]] *)
Definition read_input (index field : pystr) (self : ComfyUI) : result json :=
  rbind (getitem (workflow self) (JStr index)) (fun node =>
  rbind (getitem node (JStr (lit "inputs"))) (fun inputs =>
  getitem inputs (JStr field))).

(** The container [c] once the object it holds under [k] has become [v]. *)
Definition with_item (c : json) (k : pystr) (v : json) : json :=
  match c with
  | JDict d => JDict (dict_set d k v)
  | _ => c
  end.

(** [self.workflow[index]["inputs"][field] = value]: the two subscripts
    are evaluated, then the inner dict is updated in place. *)
Definition write_input (index field : pystr) (value : json) (self : ComfyUI)
    : setter_result :=
  match getitem (workflow self) (JStr index) with
  | Raise e => (Raise e, self)
  | Ok node =>
      match getitem node (JStr (lit "inputs")) with
      | Raise e => (Raise e, self)
      | Ok inputs =>
          match setitem inputs field value with
          | Raise e => (Raise e, self)
          | Ok inputs' =>
              let node' := with_item node (lit "inputs") inputs' in
              (Ok tt, {| workflow := with_item (workflow self) index node';
                         endpoint := endpoint self |})
          end
      end
  end.

Definition width (self : ComfyUI) : result json :=
  read_input EMPTY_INDEX (lit "width") self.

Definition set_width (value : Z) (self : ComfyUI) : setter_result :=
  if (value >? 0)%Z then write_input EMPTY_INDEX (lit "width") (JInt value) self
  else (Raise ValueError, self).

Definition height (self : ComfyUI) : result json :=
  read_input EMPTY_INDEX (lit "height") self.

Definition set_height (value : Z) (self : ComfyUI) : setter_result :=
  if (value >? 0)%Z then write_input EMPTY_INDEX (lit "height") (JInt value) self
  else (Raise ValueError, self).

Definition seed (self : ComfyUI) : result json :=
  read_input KSAMPLER_INDEX (lit "seed") self.

Definition set_seed (value : Z) (self : ComfyUI) : setter_result :=
  if (value >? 0)%Z then write_input KSAMPLER_INDEX (lit "seed") (JInt value) self
  else (Raise ValueError, self).

Definition positive (self : ComfyUI) : result json :=
  read_input POSITIVE_PROMPT_INDEX (lit "text") self.

Definition set_positive (value : pystr) (self : ComfyUI) : setter_result :=
  if truthy (JStr (strip value))
  then write_input POSITIVE_PROMPT_INDEX (lit "text") (JStr value) self
  else (Raise ValueError, self).

Definition negative (self : ComfyUI) : result json :=
  read_input NEGATIVE_PROMPT_INDEX (lit "text") self.

Definition set_negative (value : pystr) (self : ComfyUI) : setter_result :=
  write_input NEGATIVE_PROMPT_INDEX (lit "text") (JStr value) self.
End Accessors.

(** ** Reading a template and a history record *)

(** The dict [self.workflow[index]["inputs"]], when the template has one. *)
Definition inputs_of (index : pystr) (self : ComfyUI) : option pydict :=
  match workflow self with
  | JDict nodes =>
      match dict_get nodes index with
      | Some (JDict node) =>
          match dict_get node (lit "inputs") with
          | Some (JDict inputs) => Some inputs
          | _ => None
          end
      | _ => None
      end
  | _ => None
  end.

Definition has_inputs (index : pystr) (self : ComfyUI) : Prop :=
  inputs_of index self <> None.

(** A blank string is empty or made of whitespace only. *)
Definition blank (s : pystr) : Prop := forall c, In c s -> isspace c = true.

Definition is_dict (j : json) : bool :=
  match j with JDict _ => true | _ => false end.

(** The images list of an output node; a node without one has none. *)
Definition node_images (node : json) : list json :=
  match node with
  | JDict n =>
      match dict_get n (lit "images") with
      | Some (JList images) => images
      | _ => []
      end
  | _ => []
  end.

(** Every image reference of an outputs section: node after node, and
    within a node in the order of its images list. *)
Definition image_refs (outputs : pydict) : list json :=
  flat_map (fun entry => node_images (snd entry)) outputs.

(** An output node as the service writes it: an object whose "images"
    entry, when there is one, is a list of objects. *)
Definition node_ok (node : json) : bool :=
  match node with
  | JDict n =>
      match dict_get n (lit "images") with
      | None => true
      | Some (JList images) => forallb is_dict images
      | Some _ => false
      end
  | _ => false
  end.

Definition outputs_ok (outputs : pydict) : bool :=
  forallb (fun entry => node_ok (snd entry)) outputs.

Definition has_filename (image : json) : bool :=
  match image with
  | JDict i => dict_has i (lit "filename")
  | _ => false
  end.

Definition field_or (i : pydict) (k : pystr) (default : json) : json :=
  match dict_get i k with
  | Some v => v
  | None => default
  end.

(** What an image reference asks to download: its filename, its subfolder
    (the empty string when it names none) and its type ("output" when it
    names none).  A reference without filename asks for nothing. *)
Definition image_ref (image : json) : option (json * json * json) :=
  match image with
  | JDict i =>
      match dict_get i (lit "filename") with
      | Some f => Some (f, field_or i (lit "subfolder") (JStr (lit "")),
                        field_or i (lit "type") (JStr (lit "output")))
      | None => None
      end
  | _ => None
  end.

Fixpoint choose {A B} (f : A -> option B) (l : list A) : list B :=
  match l with
  | [] => []
  | x :: l' =>
      match f x with
      | Some y => y :: choose f l'
      | None => choose f l'
      end
  end.

(** Download the given files one after the other and pair each with what
    was asked for. *)
Fixpoint download_each {Env} (httpx_send : Request -> Env -> result Response * Env)
    (self : ComfyUI) (refs : list (json * json * json)) : M Env (list output) :=
  match refs with
  | [] => ret []
  | (filename, subfolder, folder_type) :: refs' =>
      data <- download_output httpx_send self filename subfolder folder_type ;;
      rest <- download_each httpx_send self refs' ;;
      ret ((folder_type, subfolder, filename, data) :: rest)
  end.

Definition has_images (node : json) : bool :=
  match node with
  | JDict n => dict_has n (lit "images")
  | _ => false
  end.

(** What the first loop of [get_job_outputs] logs: each key at DEBUG level,
    and a WARNING for each node without "images". *)
Definition collect_trace (outputs : pydict) : list event :=
  flat_map (fun entry =>
              Log DEBUG (Outputs_key (JStr (fst entry)))
              :: (if has_images (snd entry) then []
                  else [Log WARNING (Outputs_no_images (JStr (fst entry)))]))
           outputs.

Definition images_warnings (outputs : pydict) : list event :=
  map (fun entry => Log WARNING (Outputs_no_images (JStr (fst entry))))
      (filter (fun entry => negb (has_images (snd entry))) outputs).

(** The records the second loop logs at WARNING level: one for each
    image reference without filename. *)
Definition filename_warnings (images : list json) : list event :=
  map (fun _ => Log WARNING Outputs_no_filename)
      (filter (fun image => negb (has_filename image)) images).

(** What was asked for, read back from a returned tuple. *)
Definition asked (o : output) : json * json * json :=
  let '(folder_type, subfolder, filename, _) := o in
  (filename, subfolder, folder_type).

(** Two runs that differ at most in what they logged. *)
Definition same_run {Env A} (o1 o2 : outcome Env A) : Prop :=
  value o1 = value o2 /\ world o1 = world o2
  /\ requests (trace o1) = requests (trace o2).

(** ** Concrete runs *)

Module Demo.
(** A template with the shape of the service's default text-to-image
    graph, reduced to the nodes the accessors address. *)
Definition template : json :=
  JDict [
    (lit "3", JDict [(lit "inputs", JDict [(lit "seed", JInt 5); (lit "steps", JInt 20)]);
                     (lit "class_type", JStr (lit "KSampler"))]);
    (lit "5", JDict [(lit "inputs", JDict [(lit "width", JInt 512); (lit "height", JInt 512)])]);
    (lit "6", JDict [(lit "inputs", JDict [(lit "text", JStr (lit "a cat"))])]);
    (lit "7", JDict [(lit "inputs", JDict [(lit "text", JStr (lit "text, watermark"))])])
  ].

Definition client : ComfyUI :=
  {| workflow := template; endpoint := lit "http://127.0.0.1:8188/" |}.

Definition png : list byte := [x89; x50; x4e; x47].

(** A server that answers every request with status 200, the bytes
    [png] and the JSON value it was started with; its state counts the
    requests. *)
Definition server (body : json) (rq : Request) (n : nat)
    : result Response * nat :=
  (Ok {| status_code := 200; content := png; json_value := Some body;
         body_is_text := true |}, S n).

Definition uuid (n : nat) : pystr * nat := (lit "c0ffee", n).

Definition image (f : string) : json :=
  JDict [(lit "filename", JStr (lit f)); (lit "subfolder", JStr (lit ""));
         (lit "type", JStr (lit "output"))].

Definition outputs : pydict :=
  [(lit "9", JDict [(lit "images", JList [image "ComfyUI_00001_.png"])])].

Definition record : pydict :=
  [(lit "status", JDict [(lit "completed", JBool true)]);
   (lit "outputs", JDict outputs)].

Definition history : json := JDict record.

(** An image reference that names only its file, and one that names
    none. *)
Definition bare_image : pydict := [(lit "filename", JStr (lit "b.png"))].

Definition nameless_image : pydict :=
  [(lit "subfolder", JStr (lit "tmp")); (lit "type", JStr (lit "temp"))].

(** A record with a node that has no images list and a node whose list
    holds the three kinds of reference. *)
Definition text_node : pydict := [(lit "text", JList [JStr (lit "done")])].

Definition mixed_node : json :=
  JDict [(lit "images",
          JList [image "a.png"; JDict nameless_image; JDict bare_image])].

Definition mixed_outputs : pydict :=
  [(lit "8", JDict text_node); (lit "9", mixed_node)].

Definition mixed_record : pydict := [(lit "outputs", JDict mixed_outputs)].

(** The same record without the node that has no images list. *)
Definition images_record : pydict :=
  [(lit "outputs", JDict [(lit "9", mixed_node)])].

(** Three nodes: one without images, one with a good reference, one whose
    list holds a good reference and then a bare file name. *)
Definition bad_outputs : pydict :=
  [(lit "7", JDict text_node);
   (lit "8", JDict [(lit "images", JList [image "a.png"])]);
   (lit "9", JDict [(lit "images", JList [JDict bare_image; JStr (lit "c.png")])])].


(** A server that is down: it answers every request with status 503. *)
Definition down (rq : Request) (n : nat) : result Response * nat :=
  (Ok {| status_code := 503; content := []; json_value := None;
         body_is_text := true |}, S n).

(** Time that leaves the server as it is, and a disk that takes every
    file. *)
Definition sleep (seconds : Z) (n : nat) : nat := n.

Definition save (name : pystr) (data : list byte) (n : nat) : bool * nat :=
  (true, n).

(** A history answer: the job [abc123] with the given completion flag and
    status string, and the outputs of [record]. *)
Definition job (completed : bool) (status_str : string) : json :=
  JDict [(lit "abc123",
          JDict [(lit "status",
                  JDict [(lit "completed", JBool completed);
                         (lit "status_str", JStr (lit status_str))]);
                 (lit "outputs", JDict outputs)])].
End Demo.

(** ** Assignments to the accessors, one after the other *)

(** The five properties of the client. *)
Inductive slot : Type := Width | Height | Seed | Positive | Negative.

(** One property assignment [client.<slot> = value]. *)
Inductive assignment : Type :=
| Set_width (value : Z)
| Set_height (value : Z)
| Set_seed (value : Z)
| Set_positive (value : pystr)
| Set_negative (value : pystr).

Definition target (a : assignment) : slot :=
  match a with
  | Set_width _ => Width
  | Set_height _ => Height
  | Set_seed _ => Seed
  | Set_positive _ => Positive
  | Set_negative _ => Negative
  end.

(** The test each setter makes before it touches the template. *)
Definition accepted (a : assignment) : bool :=
  match a with
  | Set_width v | Set_height v | Set_seed v => (v >? 0)%Z
  | Set_positive s => truthy (JStr (strip s))
  | Set_negative _ => true
  end.

(** The value a setter stores. *)
Definition stored (a : assignment) : json :=
  match a with
  | Set_width v | Set_height v | Set_seed v => JInt v
  | Set_positive s | Set_negative s => JStr s
  end.

(** The key of the inputs object a property stands for. *)
Definition field_of (f : slot) : pystr :=
  match f with
  | Width => lit "width"
  | Height => lit "height"
  | Seed => lit "seed"
  | Positive | Negative => lit "text"
  end.

Section Assignments.
Variables EMPTY_INDEX KSAMPLER_INDEX : pystr.
Variables POSITIVE_PROMPT_INDEX NEGATIVE_PROMPT_INDEX : pystr.

(** The node a property addresses. *)
Definition node_of (f : slot) : pystr :=
  match f with
  | Width | Height => EMPTY_INDEX
  | Seed => KSAMPLER_INDEX
  | Positive => POSITIVE_PROMPT_INDEX
  | Negative => NEGATIVE_PROMPT_INDEX
  end.

(** [client.<slot>] *)
Definition read (f : slot) (self : ComfyUI) : result json :=
  match f with
  | Width => width EMPTY_INDEX self
  | Height => height EMPTY_INDEX self
  | Seed => seed KSAMPLER_INDEX self
  | Positive => positive POSITIVE_PROMPT_INDEX self
  | Negative => negative NEGATIVE_PROMPT_INDEX self
  end.

(** [client.<slot> = value] *)
Definition assign (a : assignment) (self : ComfyUI) : setter_result :=
  match a with
  | Set_width v => set_width EMPTY_INDEX v self
  | Set_height v => set_height EMPTY_INDEX v self
  | Set_seed v => set_seed KSAMPLER_INDEX v self
  | Set_positive s => set_positive POSITIVE_PROMPT_INDEX s self
  | Set_negative s => set_negative NEGATIVE_PROMPT_INDEX s self
  end.

(** The client after a caller has made the assignments in turn, going on
    after one that raised. *)
Fixpoint assign_all (l : list assignment) (self : ComfyUI) : ComfyUI :=
  match l with
  | [] => self
  | a :: l' => assign_all l' (snd (assign a self))
  end.
End Assignments.

(** The node indices of the template, in order. *)
Definition node_keys (self : ComfyUI) : list pystr :=
  match workflow self with
  | JDict nodes => dict_keys nodes
  | _ => []
  end.

(** ** The requests of the three calls *)

(** The request [submit_job] sends for the client id [client_id]. *)
Definition prompt_request (self : ComfyUI) (client_id : pystr) : Request :=
  post_request (endpoint self ++ lit "prompt")
    (JDict [(lit "prompt", workflow self); (lit "client_id", JStr client_id)]).

(** The request [query_job] sends for [prompt_id]. *)
Definition history_request (self : ComfyUI) (prompt_id : pystr) : Request :=
  get_request (endpoint self ++ lit "history/" ++ prompt_id) [].

(** What a call makes of the answer to its request, up to the decoding of
    the body: a transport error is passed on, a status outside 200..299
    becomes [HTTPStatusError]. *)
Definition checked (a : result Response) : result Response :=
  match a with
  | Ok response =>
      if is_success response then Ok response
      else Raise (HTTPStatusError (status_code response))
  | Raise e => Raise e
  end.

(** The body of a checked answer, decoded as JSON. *)
Definition decoded (a : result Response) : result json :=
  rbind (checked a) (fun response =>
    match json_value response with
    | Some j => Ok j
    | None => Raise (decode_error response)
    end).

(** The download requests of a list of files asked for. *)
Definition view_requests (self : ComfyUI) (refs : list (json * json * json))
    : list event :=
  map (fun r => let '(f, s, t) := r in Http (view_request self f s t)) refs.

(** ** The polling loop of the demo script (src/demo.py) *)

(** What ends the script early: an exception that came out of the client
    or of a subscript, the failed [assert], or an error of [open] or
    [write]. *)
Inductive script_exn : Type :=
| Raised (e : exn)
| AssertionError
| OSError.

(** What the script does that can be seen from outside: what the client
    does, the waits, the two [print]s and the file it writes. *)
Inductive script_event : Type :=
| Lib (e : event)
| Sleep (seconds : Z)
| Print_outputs (folder_type subfolder filename : json)
| Print_waiting
| Write_file (name : pystr) (data : list byte).

Inductive script_result (A : Type) : Type :=
| Done (a : A)
| Failed (e : script_exn).
Arguments Done {A} a.
Arguments Failed {A} e.

Record script_outcome (Env A : Type) : Type := Script_outcome {
  s_value : script_result A;
  s_world : Env;
  s_trace : list script_event
}.

Definition Script (Env A : Type) : Type := Env -> script_outcome Env A.

Section ScriptEffects.
Variable Env : Type.

Definition sret {A} (a : A) : Script Env A :=
  fun w => Script_outcome (Done a) w [].

Definition sraise {A} (e : script_exn) : Script Env A :=
  fun w => Script_outcome (Failed e) w [].

Definition sbind {A B} (m : Script Env A) (f : A -> Script Env B) : Script Env B :=
  fun w =>
    match m w with
    | Script_outcome (Done a) w1 tr1 =>
        match f a w1 with
        | Script_outcome r w2 tr2 => Script_outcome r w2 (tr1 ++ tr2)
        end
    | Script_outcome (Failed e) w1 tr1 => Script_outcome (Failed e) w1 tr1
    end.

(** A call of a method of the client. *)
Definition call {A} (m : M Env A) : Script Env A :=
  fun w =>
    match m w with
    | Outcome (Ok a) w1 tr => Script_outcome (Done a) w1 (map Lib tr)
    | Outcome (Raise e) w1 tr => Script_outcome (Failed (Raised e)) w1 (map Lib tr)
    end.

(** An expression on values. *)
Definition eval {A} (r : result A) : Script Env A :=
  match r with
  | Ok a => sret a
  | Raise e => sraise (Raised e)
  end.
End ScriptEffects.

Arguments sret {Env A} a.
Arguments sraise {Env A} e.
Arguments eval {Env A} r.

Declare Scope script_scope.
Delimit Scope script_scope with script.
Notation "x <- m ;; k" := (sbind m (fun x => k))
  (at level 61, m at next level, right associativity) : script_scope.
Notation "m ;; k" := (sbind m (fun _ => k))
  (at level 61, right associativity) : script_scope.

(** [RETRIES] *)
Definition RETRIES : list Z := [10; 10; 20; 30; 40; 50; 60; 60]%Z.

Section Script.
Variable Env : Type.
Variable httpx_send : Request -> Env -> result Response * Env.

(** The world after [seconds] have gone by. *)
Variable sleep : Z -> Env -> Env.

(** [open(name, "wb")], [f.write(data)] and the close of the file: [true]
    when none of them raised. *)
Variable save : pystr -> list byte -> Env -> bool * Env.

(** [time.sleep(seconds)] *)
Definition time_sleep (seconds : Z) : Script Env unit :=
  fun w =>
    if (seconds <? 0)%Z then Script_outcome (Failed (Raised ValueError)) w []
    else Script_outcome (Done tt) (sleep seconds w) [Sleep seconds].

(** [outputs[0]] *)
Definition first_output (outputs : list output) : Script Env output :=
  match outputs with
  | o :: _ => sret o
  | [] => sraise (Raised IndexError)
  end.

(** [print(o[:3])] *)
Definition print_outputs (o : output) : Script Env unit :=
  fun w =>
    let '(folder_type, subfolder, filename, _) := o in
    Script_outcome (Done tt) w [Print_outputs folder_type subfolder filename].

(** [print("Waiting")] *)
Definition print_waiting : Script Env unit :=
  fun w => Script_outcome (Done tt) w [Print_waiting].

(** [with open(name, "wb") as f: f.write(data)] *)
Definition write_file (name : pystr) (data : list byte) : Script Env unit :=
  fun w =>
    let (ok, w') := save name data w in
    Script_outcome (if ok then Done tt else Failed OSError) w'
      [Write_file name data].

Local Open Scope script_scope.

(** The branch of the loop taken when the job is reported completed, up
    to its [break]. *)
Definition finish (client : ComfyUI) (status : json) : Script Env unit :=
  state <- eval (getitem status (JStr (lit "status"))) ;;
  status_str <- eval (getitem state (JStr (lit "status_str"))) ;;
  (if is_str (lit "success") status_str then sret tt
   else sraise AssertionError) ;;
  outputs <- call (get_job_outputs httpx_send client status) ;;
  o <- first_output outputs ;;
  print_outputs o ;;
  o' <- first_output outputs ;;
  let png_data := snd o' in
  write_file (lit "tiger.png") png_data.

(** The loop [for interval in RETRIES: ...] of the script, for a client and
    a prompt identifier that is a string; leaving the loop by [break] and
    running out of intervals both end it. *)
Fixpoint poll (client : ComfyUI) (prompt_id : pystr) (intervals : list Z)
    : Script Env unit :=
  match intervals with
  | [] => sret tt
  | interval :: intervals' =>
      time_sleep interval ;;
      status <- call (query_job httpx_send client prompt_id) ;;
      state <- eval (getitem status (JStr (lit "status"))) ;;
      completed <- eval (getitem state (JStr (lit "completed"))) ;;
      if truthy completed then
        finish client status
      else
        print_waiting ;;
        poll client prompt_id intervals'
  end.
End Script.

Arguments finish {Env} httpx_send save client status : simpl never.

(** The waits of a run, its calls of [query_job] (each logs its entry
    once), what the client did during it, and the files written. *)
Definition sleeps (tr : list script_event) : list Z :=
  choose (fun e => match e with Sleep s => Some s | _ => None end) tr.

Definition lib_events (tr : list script_event) : list event :=
  choose (fun e => match e with Lib e' => Some e' | _ => None end) tr.

Definition is_query_entry (e : event) : bool :=
  match e with Log DEBUG (Query_entry _) => true | _ => false end.

Definition queries (tr : list script_event) : list event :=
  filter is_query_entry (lib_events tr).

Definition is_write (e : script_event) : bool :=
  match e with Write_file _ _ => true | _ => false end.

Definition writes (tr : list script_event) : list script_event :=
  filter is_write tr.

Definition waitings (tr : list script_event) : list script_event :=
  filter (fun e => match e with Print_waiting => true | _ => false end) tr.

(** The seconds of a list of waits, added up. *)
Definition total (l : list Z) : Z := fold_right Z.add 0%Z l.

(** A history answer that shows the job [p] unfinished: a 2xx response
    whose object holds a record for [p] with a falsy [status.completed]. *)
Definition unfinished (p : pystr) (r : Response) : Prop :=
  is_success r = true
  /\ exists m status state completed,
       json_value r = Some (JDict m)
       /\ dict_get m p = Some status
       /\ getitem status (JStr (lit "status")) = Ok state
       /\ getitem state (JStr (lit "completed")) = Ok completed
       /\ truthy completed = false.

(** An output node whose "images" entry, when there is one, is a list,
    whatever the list holds. *)
Definition node_listed (node : json) : bool :=
  match node with
  | JDict n =>
      match dict_get n (lit "images") with
      | None => true
      | Some (JList _) => true
      | Some _ => false
      end
  | _ => false
  end.

Definition outputs_listed (outputs : pydict) : bool :=
  forallb (fun entry => node_listed (snd entry)) outputs.

(** The waits and the calls of [query_job] of a run, in the order they
    happen. *)
Inductive tick : Type :=
| Waited (seconds : Z)
| Queried.

Definition ticks (tr : list script_event) : list tick :=
  choose (fun e => match e with
                   | Sleep s => Some (Waited s)
                   | Lib (Log DEBUG (Query_entry _)) => Some Queried
                   | _ => None
                   end) tr.

(** Turn after turn, one wait and then one query. *)
Definition turns (intervals : list Z) : list tick :=
  flat_map (fun i => [Waited i; Queried]) intervals.

(** Key lists of concrete dicts hold no key twice. *)
Ltac dict_wf_tac :=
  unfold dict_wf; cbv;
  repeat (apply NoDup_cons; [intros Hin; repeat destruct Hin as [Hin|Hin];
                             try discriminate Hin; exact Hin|]);
  apply NoDup_nil.

(** * Properties *)

Example get_job_outputs_demo :
  value (get_job_outputs (Demo.server JNull) Demo.client Demo.history 0)
  = Ok [(JStr (lit "output"), JStr (lit ""), JStr (lit "ComfyUI_00001_.png"), Demo.png)].
Proof. reflexivity. Qed.

Example set_width_demo :
  set_width (lit "5") 0 Demo.client = (Raise ValueError, Demo.client)
  /\ width (lit "5") (snd (set_width (lit "5") 768 Demo.client)) = Ok (JInt 768)
  /\ height (lit "5") (snd (set_width (lit "5") 768 Demo.client)) = Ok (JInt 512).
Proof. repeat split; reflexivity. Qed.

Example set_positive_demo :
  fst (set_positive (lit "6") (lit "  ") Demo.client) = Raise ValueError
  /\ positive (lit "6") (snd (set_positive (lit "6") (lit " A tiger. ") Demo.client))
     = Ok (JStr (lit " A tiger. ")).
Proof. split; reflexivity. Qed.

(** ** Strings and dictionaries *)

Lemma str_eqb_eq (a b : pystr) : str_eqb a b = true <-> a = b.
Proof.
  revert b. induction a as [|x a IH]; intros [|y b]; simpl;
    try (split; [discriminate | discriminate]); try tauto.
  rewrite andb_true_iff, N.eqb_eq, IH.
  split; [intros [-> ->] | intros [= -> ->]]; auto.
Qed.

Lemma str_eqb_refl (a : pystr) : str_eqb a a = true.
Proof. now apply str_eqb_eq. Qed.

Lemma str_eqb_neq (a b : pystr) : str_eqb a b = false <-> a <> b.
Proof.
  rewrite <- str_eqb_eq. destruct (str_eqb a b); split; congruence.
Qed.

Lemma dict_get_set_same (d : pydict) k v :
  dict_get (dict_set d k v) k = Some v.
Proof.
  induction d as [|[k' v'] d IH]; simpl.
  - now rewrite str_eqb_refl.
  - destruct (str_eqb k' k) eqn:E; simpl; rewrite E; auto.
Qed.

Lemma dict_get_set_other (d : pydict) k k' v :
  k <> k' -> dict_get (dict_set d k v) k' = dict_get d k'.
Proof.
  intros Hne. induction d as [|[k0 v0] d IH]; simpl.
  - apply str_eqb_neq in Hne. now rewrite Hne.
  - destruct (str_eqb k0 k) eqn:E; simpl.
    + apply str_eqb_eq in E. subst k0.
      apply str_eqb_neq in Hne. now rewrite Hne.
    + destruct (str_eqb k0 k'); auto.
Qed.

(** In a dict, looking a key up gives the value it is listed with. *)
Lemma dict_get_entry (d : pydict) k v :
  dict_wf d -> In (k, v) d -> dict_get d k = Some v.
Proof.
  unfold dict_wf. induction d as [|[k' v'] d IH]; simpl; [tauto|].
  intros Hnd [[= -> ->]|Hin].
  - now rewrite str_eqb_refl.
  - inversion Hnd as [|? ? Hnotin Hnd']; subst.
    destruct (str_eqb k' k) eqn:E; auto.
    apply str_eqb_eq in E. subst k'. exfalso. apply Hnotin.
    change k with (fst (k, v)). now apply in_map.
Qed.

(** *** [strip] *)

Lemma lstrip_nil_iff (s : pystr) : lstrip s = [] <-> blank s.
Proof.
  unfold blank. induction s as [|c s IH]; simpl.
  - split; [intros _ ? [] | reflexivity].
  - destruct (isspace c) eqn:E.
    + rewrite IH. split.
      * intros H x [<-|Hx]; auto.
      * intros H x Hx. apply H. now right.
    + split; [discriminate|]. intros H.
      specialize (H c (or_introl eq_refl)). congruence.
Qed.

Lemma lstrip_keeps_nonspace (s : pystr) c :
  In c s -> isspace c = false -> In c (lstrip s).
Proof.
  induction s as [|x s IH]; simpl; [tauto|].
  intros Hin Hc. destruct (isspace x) eqn:E.
  - destruct Hin as [->|Hin]; [congruence | auto].
  - exact Hin.
Qed.

Lemma lstrip_head (s : pystr) c s' : lstrip s = c :: s' -> isspace c = false.
Proof.
  induction s as [|x s IH]; simpl; [discriminate|].
  destruct (isspace x) eqn:E; [exact IH|].
  intros [= <- _]. exact E.
Qed.

(** [value.strip()] is empty exactly for a blank [value]. *)
Lemma strip_nil_iff (s : pystr) : strip s = [] <-> blank s.
Proof.
  unfold strip, rstrip. split.
  - intros H. apply lstrip_nil_iff.
    destruct (lstrip s) as [|c s'] eqn:E; [reflexivity|].
    exfalso.
    assert (Hc : isspace c = false) by exact (lstrip_head _ E).
    assert (Hin : In c (lstrip (rev (c :: s')))).
    { apply lstrip_keeps_nonspace; [|exact Hc].
      apply in_rev. rewrite rev_involutive. now left. }
    apply (f_equal (@rev N)) in H. rewrite rev_involutive in H. simpl in H, Hin.
    rewrite H in Hin. exact Hin.
  - intros H. apply lstrip_nil_iff in H. now rewrite H.
Qed.

Lemma truthy_strip (s : pystr) :
  truthy (JStr (strip s)) = true <-> exists c, In c s /\ isspace c = false.
Proof.
  split.
  - intros H.
    assert (Hnb : ~ blank s).
    { intros Hb. apply strip_nil_iff in Hb. rewrite Hb in H. discriminate. }
    unfold blank in Hnb. clear H.
    induction s as [|x s IH].
    + exfalso. apply Hnb. intros ? [].
    + destruct (isspace x) eqn:E.
      * destruct IH as [c [Hin Hc]].
        { intros Hb. apply Hnb. intros c [<-|Hc]; auto. }
        exists c. split; [now right | exact Hc].
      * exists x. split; [now left | exact E].
  - intros [c [Hin Hc]].
    destruct (strip s) eqn:E; [|reflexivity].
    apply strip_nil_iff in E. rewrite (E c Hin) in Hc. discriminate.
Qed.

(** ** The accessors *)

Lemma read_write_input index field v self :
  has_inputs index self ->
  fst (write_input index field v self) = Ok tt
  /\ read_input index field (snd (write_input index field v self)) = Ok v.
Proof.
  unfold has_inputs, inputs_of, write_input, read_input.
  destruct self as [wf ep]; simpl.
  destruct wf as [| | | | | |nodes]; try congruence.
  simpl. destruct (dict_get nodes index) as [node|] eqn:En; [|congruence].
  destruct node as [| | | | | |node]; try congruence.
  simpl. destruct (dict_get node (lit "inputs")) as [inputs|] eqn:Ei; [|congruence].
  destruct inputs as [| | | | | |inputs]; try congruence.
  intros _. simpl. split; [reflexivity|].
  rewrite dict_get_set_same. simpl.
  rewrite dict_get_set_same. simpl.
  now rewrite dict_get_set_same.
Qed.

(** An assignment that goes through leaves a template that still has the
    addressed node, and every other node it had. *)
Lemma write_input_keeps_inputs index field v self index' :
  has_inputs index self -> has_inputs index' self ->
  has_inputs index' (snd (write_input index field v self)).
Proof.
  unfold has_inputs, inputs_of, write_input.
  destruct self as [wf ep]; simpl.
  destruct wf as [| | | | | |nodes]; try congruence.
  simpl. destruct (dict_get nodes index) as [node|] eqn:En; [|congruence].
  destruct node as [| | | | | |node]; try congruence.
  simpl. destruct (dict_get node (lit "inputs")) as [inputs|] eqn:Ei; [|congruence].
  destruct inputs as [| | | | | |inputs]; try congruence.
  intros _. simpl.
  destruct (str_eqb index index') eqn:E.
  - apply str_eqb_eq in E. subst index'.
    rewrite En, Ei. intros _.
    rewrite !dict_get_set_same. congruence.
  - apply str_eqb_neq in E.
    rewrite (dict_get_set_other _ _ E). auto.
Qed.

(** The template must have the addressed node for an assignment to go
    through: the hypothesis of the accessor theorems is the weakest one. *)
Lemma write_input_ok_iff index field v self :
  fst (write_input index field v self) = Ok tt <-> has_inputs index self.
Proof.
  split; [|intros H; now apply read_write_input].
  unfold has_inputs, inputs_of, write_input.
  destruct self as [wf ep]; simpl.
  destruct wf as [| | | | | |nodes]; simpl; try discriminate.
  destruct (dict_get nodes index) as [node|]; simpl; [|discriminate].
  destruct node as [| | | | | |node]; simpl; try discriminate.
  destruct (dict_get node (lit "inputs")) as [inputs|]; simpl; [|discriminate].
  destruct inputs; simpl; try discriminate.
Qed.

Lemma positive_int_accepted index field v self :
  has_inputs index self -> (0 < v)%Z ->
  let r := if (v >? 0)%Z then write_input index field (JInt v) self
           else (Raise ValueError, self) in
  fst r = Ok tt /\ read_input index field (snd r) = Ok (JInt v).
Proof.
  intros Hin Hv. simpl.
  destruct (Z.gtb_spec v 0) as [_|Hle]; [|lia].
  now apply read_write_input.
Qed.

Lemma nonpositive_int_rejected index field v self :
  (v <= 0)%Z ->
  (if (v >? 0)%Z then write_input index field (JInt v) self
   else (Raise ValueError, self)) = (Raise ValueError, self).
Proof.
  intros Hv. destruct (Z.gtb_spec v 0) as [Hgt|_]; [lia | reflexivity].
Qed.

(** C4.  On a client whose template has the nodes the width, height and
    seed accessors address: for every positive integer [v], assigning [v]
    to width, height or seed succeeds and reading the field afterwards
    returns [v]; for every non-positive integer [v], the assignment raises
    [ValueError] and leaves the client, hence the stored value, as it
    was. *)
Theorem dimension_and_seed_setters
    (EMPTY_INDEX KSAMPLER_INDEX : pystr) (self : ComfyUI) (v : Z) :
  has_inputs EMPTY_INDEX self ->
  has_inputs KSAMPLER_INDEX self ->
  ((0 < v)%Z ->
     (fst (set_width EMPTY_INDEX v self) = Ok tt
      /\ width EMPTY_INDEX (snd (set_width EMPTY_INDEX v self)) = Ok (JInt v))
     /\ (fst (set_height EMPTY_INDEX v self) = Ok tt
         /\ height EMPTY_INDEX (snd (set_height EMPTY_INDEX v self)) = Ok (JInt v))
     /\ (fst (set_seed KSAMPLER_INDEX v self) = Ok tt
         /\ seed KSAMPLER_INDEX (snd (set_seed KSAMPLER_INDEX v self)) = Ok (JInt v)))
  /\ ((v <= 0)%Z ->
        set_width EMPTY_INDEX v self = (Raise ValueError, self)
        /\ set_height EMPTY_INDEX v self = (Raise ValueError, self)
        /\ set_seed KSAMPLER_INDEX v self = (Raise ValueError, self)).
Proof.
  intros HE HK. split.
  - intros Hv. unfold set_width, width, set_height, height, set_seed, seed.
    repeat split; now apply positive_int_accepted.
  - intros Hv. unfold set_width, set_height, set_seed.
    repeat split; now apply nonpositive_int_rejected.
Qed.

Lemma dimension_and_seed_setters_witness :
  (width (lit "5") (snd (set_width (lit "5") 768 Demo.client)) = Ok (JInt 768)
   /\ height (lit "5") (snd (set_height (lit "5") 768 Demo.client)) = Ok (JInt 768)
   /\ seed (lit "3") (snd (set_seed (lit "3") 768 Demo.client)) = Ok (JInt 768))
  /\ set_seed (lit "3") (-1) Demo.client = (Raise ValueError, Demo.client).
Proof.
  assert (H5 : has_inputs (lit "5") Demo.client) by (vm_compute; discriminate).
  assert (H3 : has_inputs (lit "3") Demo.client) by (vm_compute; discriminate).
  split.
  - destruct (dimension_and_seed_setters 768 H5 H3) as [Hpos _].
    destruct (Hpos ltac:(lia)) as [[_ Hw] [[_ Hh] [_ Hs]]].
    repeat split; assumption.
  - destruct (dimension_and_seed_setters (-1) H5 H3) as [_ Hneg].
    apply Hneg. lia.
Defined.

(** C5.  On a client whose template has the positive-prompt node: for
    every string [s] with at least one non-whitespace character, assigning
    [s] to the positive prompt succeeds and reading it afterwards returns
    [s]; for every blank string (empty or whitespace only) the assignment
    raises [ValueError] and leaves the client, hence the stored prompt, as
    it was. *)
Theorem positive_prompt_setter
    (POSITIVE_PROMPT_INDEX : pystr) (self : ComfyUI) (s : pystr) :
  has_inputs POSITIVE_PROMPT_INDEX self ->
  ((exists c, In c s /\ isspace c = false) ->
     fst (set_positive POSITIVE_PROMPT_INDEX s self) = Ok tt
     /\ positive POSITIVE_PROMPT_INDEX
          (snd (set_positive POSITIVE_PROMPT_INDEX s self)) = Ok (JStr s))
  /\ (blank s ->
        set_positive POSITIVE_PROMPT_INDEX s self = (Raise ValueError, self)).
Proof.
  intros HP. unfold set_positive, positive. split.
  - intros Hs. apply truthy_strip in Hs. rewrite Hs.
    now apply read_write_input.
  - intros Hb. apply strip_nil_iff in Hb. now rewrite Hb.
Qed.

Lemma positive_prompt_setter_witness :
  positive (lit "6") (snd (set_positive (lit "6") (lit " A tiger. ") Demo.client))
    = Ok (JStr (lit " A tiger. "))
  /\ set_positive (lit "6") [32; 9; 8195]%N Demo.client
     = (Raise ValueError, Demo.client).
Proof.
  assert (H6 : has_inputs (lit "6") Demo.client) by (vm_compute; discriminate).
  split.
  - destruct (positive_prompt_setter (lit " A tiger. ") H6) as [Hok _].
    apply Hok. exists 65%N. split; [vm_compute; tauto | reflexivity].
  - destruct (positive_prompt_setter [32; 9; 8195]%N H6) as [_ Hblank].
    apply Hblank. intros c [<-|[<-|[<-|[]]]]; reflexivity.
Defined.

(** C8.  On a client whose template has the negative-prompt node: for
    every string [s], the empty string and whitespace-only strings
    included, assigning [s] to the negative prompt succeeds, and reading
    the negative prompt afterwards returns [s]. *)
Theorem negative_prompt_setter
    (NEGATIVE_PROMPT_INDEX : pystr) (self : ComfyUI) (s : pystr) :
  has_inputs NEGATIVE_PROMPT_INDEX self ->
  fst (set_negative NEGATIVE_PROMPT_INDEX s self) = Ok tt
  /\ negative NEGATIVE_PROMPT_INDEX
       (snd (set_negative NEGATIVE_PROMPT_INDEX s self)) = Ok (JStr s).
Proof.
  intros HN. unfold set_negative, negative. now apply read_write_input.
Qed.

Lemma negative_prompt_setter_witness :
  fst (set_negative (lit "7") [] Demo.client) = Ok tt
  /\ negative (lit "7") (snd (set_negative (lit "7") [] Demo.client)) = Ok (JStr []).
Proof.
  apply negative_prompt_setter. vm_compute. discriminate.
Defined.

(** ** Submit and query *)

(** The request [submit_job] sends for the client id it drew. *)
Lemma submit_job_run Env (httpx_send : Request -> Env -> result Response * Env)
    (uuid4 : Env -> pystr * Env) self w client_id w1 response w2 d :
  uuid4 w = (client_id, w1) ->
  httpx_send (post_request (endpoint self ++ lit "prompt")
                (JDict [(lit "prompt", workflow self);
                        (lit "client_id", JStr client_id)])) w1
    = (Ok response, w2) ->
  is_success response = true ->
  json_value response = Some (JDict d) ->
  let prompt_id := field_or d (lit "prompt_id") (JStr (lit "")) in
  let o := submit_job httpx_send uuid4 self w in
  value o = Ok prompt_id
  /\ world o = w2
  /\ warnings (trace o) =
       if truthy prompt_id then []
       else [Log WARNING (Submit_no_prompt_id (status_code response))].
Proof.
  intros Hu Hs Hok Hj. simpl.
  unfold submit_job, bind, new_uuid, httpx_post, httpx_request, log, lift,
    raise_for_status, response_json, ret.
  rewrite Hu. cbn. rewrite Hs. cbn. rewrite Hok. cbn. rewrite Hj. cbn.
  unfold field_or.
  destruct (truthy _); cbn; auto.
Qed.

(** C2.  When the submit request is answered with a 2xx status and a JSON
    object: if the object maps "prompt_id" to a non-empty string [p],
    [submit_job] returns [p] and logs no warning; if "prompt_id" is
    missing or maps to the empty string, [submit_job] returns the empty
    string, logs one warning, and raises nothing. *)
Theorem submit_job_prompt_id Env
    (httpx_send : Request -> Env -> result Response * Env)
    (uuid4 : Env -> pystr * Env) self w client_id w1 response w2 d :
  uuid4 w = (client_id, w1) ->
  httpx_send (post_request (endpoint self ++ lit "prompt")
                (JDict [(lit "prompt", workflow self);
                        (lit "client_id", JStr client_id)])) w1
    = (Ok response, w2) ->
  is_success response = true ->
  json_value response = Some (JDict d) ->
  (forall p, dict_get d (lit "prompt_id") = Some (JStr p) -> p <> [] ->
     value (submit_job httpx_send uuid4 self w) = Ok (JStr p)
     /\ warnings (trace (submit_job httpx_send uuid4 self w)) = [])
  /\ (dict_get d (lit "prompt_id") = None
      \/ dict_get d (lit "prompt_id") = Some (JStr []) ->
      value (submit_job httpx_send uuid4 self w) = Ok (JStr [])
      /\ warnings (trace (submit_job httpx_send uuid4 self w))
         = [Log WARNING (Submit_no_prompt_id (status_code response))]).
Proof.
  intros Hu Hs Hok Hj.
  destruct (@submit_job_run _ httpx_send uuid4 self _ _ _ _ _ _ Hu Hs Hok Hj)
    as [Hv [_ Hw]].
  unfold field_or in Hv, Hw. split.
  - intros p Hp Hne. rewrite Hp in Hv, Hw.
    split; [exact Hv|]. destruct p; [congruence | exact Hw].
  - intros [Hp|Hp]; rewrite Hp in Hv, Hw; split; assumption.
Qed.

Lemma submit_job_prompt_id_witness :
  value (submit_job (Demo.server (JDict [(lit "prompt_id", JStr (lit "abc123"))]))
           Demo.uuid Demo.client 0) = Ok (JStr (lit "abc123"))
  /\ value (submit_job (Demo.server (JDict [(lit "prompt_id", JStr [])]))
              Demo.uuid Demo.client 0) = Ok (JStr [])
  /\ value (submit_job (Demo.server (JDict [(lit "number", JInt 1)]))
              Demo.uuid Demo.client 0) = Ok (JStr []).
Proof.
  split; [|split].
  - refine (proj1 (proj1 (submit_job_prompt_id
        (Demo.server (JDict [(lit "prompt_id", JStr (lit "abc123"))]))
        Demo.uuid Demo.client 0 eq_refl eq_refl eq_refl eq_refl)
        (lit "abc123") eq_refl _)).
    discriminate.
  - refine (proj1 (proj2 (submit_job_prompt_id
        (Demo.server (JDict [(lit "prompt_id", JStr [])]))
        Demo.uuid Demo.client 0 eq_refl eq_refl eq_refl eq_refl) _)).
    right. reflexivity.
  - refine (proj1 (proj2 (submit_job_prompt_id
        (Demo.server (JDict [(lit "number", JInt 1)]))
        Demo.uuid Demo.client 0 eq_refl eq_refl eq_refl eq_refl) _)).
    left. reflexivity.
Defined.

(** C3.  When the history request for the prompt identifier [p] is
    answered with a 2xx status and a JSON mapping [m]: [query_job] raises
    [KeyError] when [p] is not a key of [m], and returns [m[p]] when it
    is. *)
Theorem query_job_lookup Env
    (httpx_send : Request -> Env -> result Response * Env)
    self (p : pystr) w response w' m :
  httpx_send (get_request (endpoint self ++ lit "history/" ++ p) []) w
    = (Ok response, w') ->
  is_success response = true ->
  json_value response = Some (JDict m) ->
  (dict_get m p = None ->
     value (query_job httpx_send self p w) = Raise KeyError)
  /\ (forall record, dict_get m p = Some record ->
        value (query_job httpx_send self p w) = Ok record).
Proof.
  intros Hs Hok Hj.
  unfold query_job, bind, httpx_get, httpx_request, log, lift,
    raise_for_status, response_json, ret.
  cbn. rewrite Hs. cbn. rewrite Hok. cbn. rewrite Hj. cbn.
  unfold dict_has. split.
  - intros Hp. rewrite Hp. reflexivity.
  - intros record Hp. rewrite Hp. cbn. rewrite ?Hp. reflexivity.
Qed.

Lemma query_job_lookup_witness :
  value (query_job (Demo.server (JDict [(lit "xyz", JDict [])]))
           Demo.client (lit "abc123") 0) = Raise KeyError
  /\ value (query_job (Demo.server (JDict [(lit "abc123", Demo.history)]))
              Demo.client (lit "abc123") 0) = Ok Demo.history.
Proof.
  split.
  - refine (proj1 (query_job_lookup
        (Demo.server (JDict [(lit "xyz", JDict [])]))
        Demo.client (lit "abc123") 0 eq_refl eq_refl eq_refl) eq_refl).
  - refine (proj2 (query_job_lookup
        (Demo.server (JDict [(lit "abc123", Demo.history)]))
        Demo.client (lit "abc123") 0 eq_refl eq_refl eq_refl) _ eq_refl).
Defined.

(** ** Extracting the outputs *)

(** C6.  For every history record without an "outputs" key,
    [get_job_outputs] raises [ValueError]; it sends no request (so
    downloads nothing), logs nothing and leaves the world as it was. *)
Theorem get_job_outputs_without_outputs Env
    (httpx_send : Request -> Env -> result Response * Env)
    self (h : pydict) w :
  dict_get h (lit "outputs") = None ->
  get_job_outputs httpx_send self (JDict h) w = Outcome (Raise ValueError) w [].
Proof.
  intros Hno. unfold get_job_outputs, bind, lift, raise. cbn.
  unfold dict_has. rewrite Hno. reflexivity.
Qed.

Lemma get_job_outputs_without_outputs_witness :
  get_job_outputs (Demo.server JNull) Demo.client
    (JDict [(lit "status", JDict [(lit "completed", JBool true)])]) 0
  = Outcome (Raise ValueError) 0 [].
Proof.
  apply get_job_outputs_without_outputs. reflexivity.
Defined.

Section Runs.
Variable Env : Type.
Variable httpx_send : Request -> Env -> result Response * Env.
Variable self : ComfyUI.

Lemma bind_ok {A B} (m : M Env A) (f : A -> M Env B) w a :
  value (m w) = Ok a ->
  bind m f w = Outcome (value (f a (world (m w))))
                       (world (f a (world (m w))))
                       (trace (m w) ++ trace (f a (world (m w)))).
Proof.
  intros H. unfold bind.
  destruct (m w) as [[a'|e] w1 tr1]; cbn in *; [injection H as ->|discriminate].
  now destruct (f a w1).
Qed.

Lemma bind_raise {A B} (m : M Env A) (f : A -> M Env B) w e :
  value (m w) = Raise e ->
  bind m f w = Outcome (Raise e) (world (m w)) (trace (m w)).
Proof.
  intros H. unfold bind.
  destruct (m w) as [[a|e'] w1 tr1]; cbn in *; [discriminate|now injection H as ->].
Qed.

Lemma requests_app tr1 tr2 : requests (tr1 ++ tr2) = requests tr1 ++ requests tr2.
Proof. apply filter_app. Qed.

Lemma warnings_app tr1 tr2 : warnings (tr1 ++ tr2) = warnings tr1 ++ warnings tr2.
Proof. apply filter_app. Qed.

(** A download sends its one request and logs no warning. *)
Lemma download_output_trace filename subfolder folder_type w :
  let o := download_output httpx_send self filename subfolder folder_type w in
  requests (trace o) = [Http (view_request self filename subfolder folder_type)]
  /\ warnings (trace o) = [].
Proof.
  unfold download_output, bind, httpx_request, log, raise_for_status, ret, raise.
  cbn. destruct (httpx_send _ w) as [[response|e] w1]; cbn; auto.
  destruct (is_success response); cbn; auto.
Qed.

(** What a download returns is what the server answers to its request. *)
Lemma download_output_value filename subfolder folder_type w :
  let o := download_output httpx_send self filename subfolder folder_type w in
  let a := httpx_send (view_request self filename subfolder folder_type) w in
  world o = snd a
  /\ value o = match fst a with
               | Ok response =>
                   if is_success response then Ok (content response)
                   else Raise (HTTPStatusError (status_code response))
               | Raise e => Raise e
               end.
Proof.
  unfold download_output, bind, httpx_request, log, raise_for_status, ret, raise.
  cbn. destruct (httpx_send _ w) as [[response|e] w1]; cbn; auto.
  destruct (is_success response); cbn; auto.
Qed.

(** [download_each] returns one tuple for each file asked for, in order. *)
Lemma download_each_asked refs : forall w l,
  value (download_each httpx_send self refs w) = Ok l -> map asked l = refs.
Proof.
  induction refs as [|[[f s] t] refs IH]; intros w l; cbn.
  - now intros [= <-].
  - unfold bind.
    destruct (download_output httpx_send self f s t w) as [[data|e] w1 tr1]; cbn;
      [|discriminate].
    specialize (IH w1).
    destruct (download_each httpx_send self refs w1) as [[rest|e] w2 tr2]; cbn in *;
      [|discriminate].
    intros [= <-]. cbn. now rewrite (IH rest eq_refl).
Qed.

Lemma download_each_warnings refs : forall w,
  warnings (trace (download_each httpx_send self refs w)) = [].
Proof.
  induction refs as [|[[f s] t] refs IH]; intros w; cbn [download_each];
    [reflexivity|].
  unfold bind.
  pose proof (download_output_trace f s t w) as [_ Hw]. cbv zeta in Hw.
  destruct (download_output httpx_send self f s t w) as [[data|e] w1 tr1];
    cbn [trace] in *; [|exact Hw].
  specialize (IH w1).
  destruct (download_each httpx_send self refs w1) as [[rest|e] w2 tr2];
    cbn [trace ret] in *;
    rewrite ?app_nil_r, warnings_app, Hw, IH; reflexivity.
Qed.

Lemma image_fields_dict (i : pydict) :
  image_fields (JDict i)
  = match image_ref (JDict i) with
    | Some r => Ok r
    | None => Raise KeyError
    end.
Proof.
  unfold image_fields, image_ref, field_or. cbn.
  destruct (dict_get i (lit "filename")); reflexivity.
Qed.

Lemma image_ref_filename (i : pydict) :
  match dict_get i (lit "filename") with
  | Some f =>
      image_ref (JDict i)
      = Some (f, field_or i (lit "subfolder") (JStr (lit "")),
              field_or i (lit "type") (JStr (lit "output")))
      /\ has_filename (JDict i) = true
  | None => image_ref (JDict i) = None /\ has_filename (JDict i) = false
  end.
Proof.
  unfold image_ref, has_filename, dict_has.
  destruct (dict_get i (lit "filename")); auto.
Qed.

(** One turn of a loop, read through the projections of its outcome. *)
Lemma for_each_cons {A S} (x : A) xs (body : S -> A -> M Env S) acc w :
  for_each (x :: xs) body acc w
  = let o := body acc x w in
    match value o with
    | Ok acc' =>
        let o2 := for_each xs body acc' (world o) in
        Outcome (value o2) (world o2) (trace o ++ trace o2)
    | Raise e => Outcome (Raise e) (world o) (trace o)
    end.
Proof.
  cbn [for_each]. unfold bind.
  destruct (body acc x w) as [[acc'|e] w1 tr1]; cbn [value world trace]; auto.
  now destruct (for_each xs body acc' w1).
Qed.

Lemma download_each_cons f s t refs w :
  download_each httpx_send self ((f, s, t) :: refs) w
  = let o := download_output httpx_send self f s t w in
    match value o with
    | Ok data =>
        let o2 := download_each httpx_send self refs (world o) in
        Outcome (match value o2 with
                 | Ok rest => Ok ((t, s, f, data) :: rest)
                 | Raise e => Raise e
                 end)
                (world o2) (trace o ++ trace o2)
    | Raise e => Outcome (Raise e) (world o) (trace o)
    end.
Proof.
  cbn [download_each]. unfold bind, ret.
  destruct (download_output httpx_send self f s t w) as [[data|e] w1 tr1];
    cbn [value world trace]; auto.
  destruct (download_each httpx_send self refs w1) as [[rest|e] w2 tr2];
    cbn [value world trace]; now rewrite ?app_nil_r.
Qed.

(** One turn of the second loop, on an image reference with a filename
    and on one without. *)
Lemma fetch_image_some (i : pydict) f s t acc w :
  image_ref (JDict i) = Some (f, s, t) ->
  fetch_image httpx_send self acc (JDict i) w
  = let o := download_output httpx_send self f s t w in
    Outcome (match value o with
             | Ok data => Ok (acc ++ [(t, s, f, data)])
             | Raise e => Raise e
             end)
            (world o) (trace o).
Proof.
  intros Hr. unfold fetch_image. rewrite image_fields_dict, Hr.
  unfold bind, ret.
  destruct (download_output httpx_send self f s t w) as [[data|e] w1 tr1];
    cbn [value world trace]; now rewrite ?app_nil_r.
Qed.

Lemma fetch_image_none (i : pydict) acc w :
  image_ref (JDict i) = None ->
  fetch_image httpx_send self acc (JDict i) w
  = Outcome (Ok acc) w [Log WARNING Outputs_no_filename].
Proof.
  intros Hr. unfold fetch_image. rewrite image_fields_dict, Hr. reflexivity.
Qed.

(** The second loop downloads the references that have a filename, in
    order, and appends a tuple for each. *)
Lemma fetch_loop images :
  forallb is_dict images = true ->
  forall acc w,
    let o := for_each images (fetch_image httpx_send self) acc w in
    let o' := download_each httpx_send self (choose image_ref images) w in
    value o = match value o' with
              | Ok l => Ok (acc ++ l)
              | Raise e => Raise e
              end
    /\ world o = world o'
    /\ requests (trace o) = requests (trace o')
    /\ (forall l, value o = Ok l -> warnings (trace o) = filename_warnings images).
Proof.
  induction images as [|image images IH]; intros Hd acc w; cbv zeta.
  - cbn. rewrite app_nil_r. auto.
  - cbn [forallb] in Hd. apply andb_true_iff in Hd as [Hi Hd].
    destruct image as [| | | | | |i]; try discriminate.
    specialize (IH Hd).
    rewrite for_each_cons. cbv zeta.
    unfold filename_warnings. cbn [filter choose].
    pose proof (image_ref_filename i) as Hi'.
    destruct (dict_get i (lit "filename")) as [f|]; destruct Hi' as [Hr ->];
      rewrite Hr; cbn [negb map].
    + rewrite (@fetch_image_some i _ _ _ acc w Hr), download_each_cons. cbv zeta.
      set (s := field_or i (lit "subfolder") (JStr (lit ""))).
      set (t := field_or i (lit "type") (JStr (lit "output"))).
      pose proof (download_output_trace f s t w) as [_ Hw]. cbv zeta in Hw.
      destruct (download_output httpx_send self f s t w) as [[data|e] w1 tr1];
        cbn [value world trace] in *.
      * specialize (IH (acc ++ [(t, s, f, data)]) w1). cbv zeta in IH.
        destruct IH as [IHv [IHw [IHr IHl]]].
        rewrite !requests_app, !warnings_app, IHr, IHv, IHw, Hw.
        destruct (value (download_each _ _ _ w1)) as [rest|e];
          rewrite <- ?app_assoc; repeat split; auto; try discriminate.
        intros l _. apply (IHl _ IHv).
      * repeat split; auto. discriminate.
    + rewrite (@fetch_image_none i acc w Hr). cbn [value world trace].
      specialize (IH acc w). cbv zeta in IH.
      destruct IH as [IHv [IHw [IHr IHl]]].
      repeat split; auto.
      intros l Hl. cbn. f_equal. now apply IHl with l.
Qed.

Lemma collect_trace_requests outputs : requests (collect_trace outputs) = [].
Proof.
  unfold collect_trace, requests.
  induction outputs as [|[k node] outputs IH]; cbn; auto.
  destruct (has_images node); cbn; auto.
Qed.

Lemma collect_trace_warnings outputs :
  warnings (collect_trace outputs) = images_warnings outputs.
Proof.
  unfold collect_trace, images_warnings, warnings.
  induction outputs as [|[k node] outputs IH]; cbn; auto.
  destruct (has_images node); cbn; now rewrite IH.
Qed.

(** One turn of the first loop, on a node as the service writes it. *)
Lemma collect_images_step h outputs k node acc (w : Env) :
  dict_get h (lit "outputs") = Some (JDict outputs) ->
  dict_get outputs k = Some node ->
  node_ok node = true ->
  collect_images (JDict h) acc (JStr k) w
  = Outcome (Ok (acc ++ node_images node)) w
      (Log DEBUG (Outputs_key (JStr k))
       :: (if has_images node then []
           else [Log WARNING (Outputs_no_images (JStr k))])).
Proof.
  intros Hout Hk Hnode.
  destruct node as [| | | | | |n]; try discriminate.
  unfold collect_images, node_ok, node_images, has_images, dict_has in *.
  unfold bind, lift, log, ret. cbn.
  rewrite Hout. cbn. rewrite Hk. cbn. unfold dict_has.
  destruct (dict_get n (lit "images")) as [images|] eqn:Ei.
  - destruct images as [| | | | |images|]; try discriminate.
    reflexivity.
  - cbn. now rewrite app_nil_r.
Qed.

(** The first loop gathers the images lists of the nodes, in order; it
    sends nothing. *)
Lemma collect_loop h outputs :
  dict_get h (lit "outputs") = Some (JDict outputs) ->
  forall entries,
    (forall k node, In (k, node) entries -> dict_get outputs k = Some node) ->
    outputs_ok entries = true ->
    forall acc (w : Env),
      for_each (map JStr (dict_keys entries)) (collect_images (JDict h)) acc w
      = Outcome (Ok (acc ++ image_refs entries)) w (collect_trace entries).
Proof.
  intros Hout. induction entries as [|[k node] entries IH]; intros Hget Hok acc w.
  - cbn. now rewrite app_nil_r.
  - cbn [outputs_ok forallb snd] in Hok. apply andb_true_iff in Hok as [Hnode Hok].
    assert (Hk : dict_get outputs k = Some node) by (apply Hget; now left).
    assert (IH' := fun acc w => IH (fun k node H => Hget k node (or_intror H)) Hok acc w).
    clear IH.
    cbn [dict_keys map fst]. rewrite for_each_cons.
    rewrite (@collect_images_step h outputs k node acc w Hout Hk Hnode). cbv zeta.
    cbn [value world trace]. fold (dict_keys entries). rewrite IH'.
    cbn [value world trace]. unfold image_refs, collect_trace.
    cbn [flat_map fst snd]. now rewrite <- app_assoc.
Qed.

Lemma image_refs_are_dicts outputs :
  outputs_ok outputs = true -> forallb is_dict (image_refs outputs) = true.
Proof.
  unfold outputs_ok, image_refs.
  induction outputs as [|[k node] outputs IH]; cbn; auto.
  intros H. apply andb_true_iff in H as [Hn Ho].
  rewrite forallb_app, (IH Ho), andb_true_r.
  destruct node as [| | | | | |n]; cbn in *; auto.
  destruct (dict_get n (lit "images")) as [[| | | | |images|]|]; auto.
Qed.

(** [get_job_outputs] on a record as the service writes it: the method
    downloads, in order, every image reference that has a filename. *)
Lemma get_job_outputs_run h outputs w :
  dict_get h (lit "outputs") = Some (JDict outputs) ->
  dict_wf outputs ->
  outputs_ok outputs = true ->
  let o := get_job_outputs httpx_send self (JDict h) w in
  let o' := download_each httpx_send self
              (choose image_ref (image_refs outputs)) w in
  same_run o o'
  /\ (exists tr, trace o = collect_trace outputs ++ tr)
  /\ (forall l, value o = Ok l ->
        warnings (trace o)
        = images_warnings outputs ++ filename_warnings (image_refs outputs)).
Proof.
  intros Hout Hwf Hok.
  pose proof (@collect_loop h outputs Hout outputs
                (fun k node H => @dict_get_entry outputs k node Hwf H) Hok [])
    as Hc.
  pose proof (@fetch_loop (image_refs outputs)
                (@image_refs_are_dicts outputs Hok) [] w) as Hf.
  cbv zeta in Hf. destruct Hf as [Hv [Hw [Hr Hl]]].
  unfold get_job_outputs, same_run.
  unfold bind, lift, raise. cbn [contains]. unfold dict_has. rewrite Hout.
  cbn [negb getitem iter]. rewrite Hout.
  cbn [iter]. rewrite Hc.
  unfold log, ret. cbv beta iota. cbn [app].
  destruct (for_each (image_refs outputs) (fetch_image httpx_send self) [] w)
    as [[l|e] w1 tr1]; cbn [value world trace app] in *.
  - destruct (value (download_each _ _ _ w)) as [l'|e'] eqn:Ev; [|discriminate].
    injection Hv as ->.
    rewrite !requests_app, !warnings_app, collect_trace_requests,
      collect_trace_warnings, (Hl _ eq_refl).
    cbn. rewrite !app_nil_r. repeat split; eauto.
  - destruct (value (download_each _ _ _ w)) as [l'|e'] eqn:Ev; [discriminate|].
    rewrite !requests_app, collect_trace_requests.
    repeat split; eauto. discriminate.
Qed.
End Runs.

Lemma same_run_sym Env A (o1 o2 : outcome Env A) : same_run o1 o2 -> same_run o2 o1.
Proof. unfold same_run. intuition congruence. Qed.

Lemma same_run_trans Env A (o1 o2 o3 : outcome Env A) :
  same_run o1 o2 -> same_run o2 o3 -> same_run o1 o3.
Proof. unfold same_run. intuition congruence. Qed.

Lemma image_refs_app (a b : pydict) : image_refs (a ++ b) = image_refs a ++ image_refs b.
Proof. apply flat_map_app. Qed.

Lemma outputs_ok_app (a b : pydict) :
  outputs_ok (a ++ b) = outputs_ok a && outputs_ok b.
Proof. apply forallb_app. Qed.

Lemma collect_trace_app (a b : pydict) :
  collect_trace (a ++ b) = collect_trace a ++ collect_trace b.
Proof. apply flat_map_app. Qed.

(** When every reference has a filename, [choose image_ref] keeps them
    all, in order. *)
Lemma choose_all (images : list json) :
  forallb has_filename images = true ->
  Forall2 (fun image r => image_ref image = Some r)
          images (choose image_ref images).
Proof.
  induction images as [|image images IH]; cbn [forallb choose]; [constructor|].
  intros H. apply andb_true_iff in H as [Hf H].
  destruct image as [| | | | | |i]; try discriminate.
  pose proof (image_ref_filename i) as Hi.
  destruct (dict_get i (lit "filename")) as [f|]; destruct Hi as [Hr Hf'];
    [|congruence].
  rewrite Hr. constructor; auto.
Qed.

Lemma choose_filter (images : list json) :
  forallb is_dict images = true ->
  choose image_ref images = choose image_ref (filter has_filename images)
  /\ forallb has_filename (filter has_filename images) = true.
Proof.
  induction images as [|image images IH]; cbn [forallb choose filter]; [auto|].
  intros H. apply andb_true_iff in H as [Hd H]. destruct (IH H) as [IH1 IH2].
  destruct image as [| | | | | |i]; try discriminate.
  pose proof (image_ref_filename i) as Hi.
  destruct (dict_get i (lit "filename")) as [f|]; destruct Hi as [Hr Hf];
    rewrite Hr, Hf; cbn [choose forallb]; rewrite ?Hr, ?Hf, ?IH1; auto.
Qed.

Lemma In_choose (images : list json) image r :
  In image images -> image_ref image = Some r -> In r (choose image_ref images).
Proof.
  induction images as [|x images IH]; cbn [choose]; [tauto|].
  intros [->|Hin] Hr.
  - rewrite Hr. now left.
  - destruct (image_ref x); [right|]; auto.
Qed.

Lemma Forall2_asked (images : list json) (l : list output) :
  Forall2 (fun image r => image_ref image = Some r) images (map asked l) ->
  Forall2 (fun image o => image_ref image = Some (asked o)) images l.
Proof.
  revert images. induction l as [|o l IH]; intros images H; inversion H; subst;
    constructor; auto.
Qed.

(** The run of [get_job_outputs] on a record with one image reference. *)
Lemma single_image_run Env (httpx_send : Request -> Env -> result Response * Env)
    self h outputs w i f s t b :
  dict_get h (lit "outputs") = Some (JDict outputs) ->
  dict_wf outputs ->
  outputs_ok outputs = true ->
  image_refs outputs = [JDict i] ->
  image_ref (JDict i) = Some (f, s, t) ->
  value (download_output httpx_send self f s t w) = Ok b ->
  value (get_job_outputs httpx_send self (JDict h) w) = Ok [(t, s, f, b)]
  /\ requests (trace (get_job_outputs httpx_send self (JDict h) w))
     = [Http (view_request self f s t)].
Proof.
  intros Hout Hwf Hok Hrefs Hr Hb.
  destruct (@get_job_outputs_run Env httpx_send self h outputs w Hout Hwf Hok)
    as [[Hv [_ Hq]] _].
  rewrite Hrefs in Hv, Hq. cbn [choose] in Hv, Hq. rewrite Hr in Hv, Hq.
  rewrite download_each_cons in Hv, Hq. cbv zeta in Hv, Hq.
  rewrite Hb in Hv, Hq. cbn [value world trace download_each ret] in Hv, Hq.
  rewrite app_nil_r in Hq.
  pose proof (@download_output_trace Env httpx_send self f s t w) as [Ht _].
  cbv zeta in Ht. rewrite Ht in Hq. auto.
Qed.

(** C1.  For a history record as the service writes it (an "outputs"
    object of nodes, each an object whose "images" entry, if any, is a list
    of objects): when the outputs section holds exactly one image reference
    [{filename: f, subfolder: s, type: t}] and [download_output(f, s, t)]
    returns the bytes [b], [get_job_outputs] returns the one-element list
    [[(t, s, f, b)]]; in general the method returns what downloading the
    image references one after the other returns, node after node and
    within a node in the order of its images list, so that, when every
    reference has a filename, the returned list has one tuple per
    reference, in that order. *)
Theorem get_job_outputs_in_order Env
    (httpx_send : Request -> Env -> result Response * Env)
    self (h outputs : pydict) w :
  dict_get h (lit "outputs") = Some (JDict outputs) ->
  dict_wf outputs ->
  outputs_ok outputs = true ->
  (forall i f s t b,
     image_refs outputs = [JDict i] ->
     dict_get i (lit "filename") = Some f ->
     dict_get i (lit "subfolder") = Some s ->
     dict_get i (lit "type") = Some t ->
     value (download_output httpx_send self f s t w) = Ok b ->
     value (get_job_outputs httpx_send self (JDict h) w) = Ok [(t, s, f, b)])
  /\ same_run (get_job_outputs httpx_send self (JDict h) w)
              (download_each httpx_send self
                 (choose image_ref (image_refs outputs)) w)
  /\ (forallb has_filename (image_refs outputs) = true ->
      forall l,
        value (get_job_outputs httpx_send self (JDict h) w) = Ok l ->
        Forall2 (fun image o => image_ref image = Some (asked o))
                (image_refs outputs) l).
Proof.
  intros Hout Hwf Hok.
  destruct (@get_job_outputs_run Env httpx_send self h outputs w Hout Hwf Hok)
    as [Hrun _].
  split; [|split].
  - intros i f s t b Hrefs Hf Hs Ht Hb.
    apply (@single_image_run Env httpx_send self h outputs w i f s t b); auto.
    unfold image_ref, field_or. now rewrite Hf, Hs, Ht.
  - exact Hrun.
  - intros Hall l Hl. apply Forall2_asked.
    destruct Hrun as [Hv _]. rewrite Hl in Hv. symmetry in Hv.
    rewrite (@download_each_asked Env httpx_send self _ w l Hv).
    now apply choose_all.
Qed.

Lemma get_job_outputs_in_order_witness :
  value (get_job_outputs (Demo.server JNull) Demo.client Demo.history 0)
  = Ok [(JStr (lit "output"), JStr (lit ""), JStr (lit "ComfyUI_00001_.png"),
         Demo.png)].
Proof.
  refine (proj1 (@get_job_outputs_in_order nat (Demo.server JNull) Demo.client
                   Demo.record Demo.outputs 0 eq_refl _ eq_refl)
            _ _ _ _ _ eq_refl eq_refl eq_refl eq_refl eq_refl).
  dict_wf_tac.
Defined.

(** C7.  For a history record as the service writes it, whose image
    references may lack the "filename" key: when the downloads of the
    references that have a filename succeed and return the list [l],
    [get_job_outputs] returns [l] too, with one tuple for every reference
    that has a filename, in order; the references without filename are
    skipped, and the method logs one warning for each of them (after the
    warnings for nodes without images). *)
Theorem get_job_outputs_skips_missing_filename Env
    (httpx_send : Request -> Env -> result Response * Env)
    self (h outputs : pydict) w l :
  dict_get h (lit "outputs") = Some (JDict outputs) ->
  dict_wf outputs ->
  outputs_ok outputs = true ->
  value (download_each httpx_send self
           (choose image_ref (filter has_filename (image_refs outputs))) w)
    = Ok l ->
  value (get_job_outputs httpx_send self (JDict h) w) = Ok l
  /\ Forall2 (fun image o => image_ref image = Some (asked o))
             (filter has_filename (image_refs outputs)) l
  /\ warnings (trace (get_job_outputs httpx_send self (JDict h) w))
     = images_warnings outputs ++ filename_warnings (image_refs outputs)
  /\ List.length (filename_warnings (image_refs outputs))
     = List.length (filter (fun image => negb (has_filename image))
                           (image_refs outputs)).
Proof.
  intros Hout Hwf Hok Hl.
  destruct (@get_job_outputs_run Env httpx_send self h outputs w Hout Hwf Hok)
    as [[Hv _] [_ Hwarn]].
  destruct (choose_filter (image_refs outputs) (image_refs_are_dicts outputs Hok))
    as [Hc Hall].
  rewrite Hc, Hl in Hv.
  repeat split.
  - exact Hv.
  - apply Forall2_asked.
    rewrite (@download_each_asked Env httpx_send self _ w l Hl).
    now apply choose_all.
  - now apply Hwarn with l.
  - unfold filename_warnings. apply length_map.
Qed.

Lemma get_job_outputs_skips_missing_filename_witness :
  value (get_job_outputs (Demo.server JNull) Demo.client
           (JDict Demo.mixed_record) 0)
  = Ok [(JStr (lit "output"), JStr (lit ""), JStr (lit "a.png"), Demo.png);
        (JStr (lit "output"), JStr (lit ""), JStr (lit "b.png"), Demo.png)].
Proof.
  refine (proj1 (@get_job_outputs_skips_missing_filename nat (Demo.server JNull)
                   Demo.client Demo.mixed_record Demo.mixed_outputs 0
                   [(JStr (lit "output"), JStr (lit ""), JStr (lit "a.png"), Demo.png);
                    (JStr (lit "output"), JStr (lit ""), JStr (lit "b.png"), Demo.png)]
                   eq_refl _ eq_refl eq_refl)).
  dict_wf_tac.
Defined.

(** C9.  For a history record as the service writes it, an output node
    whose object lacks the "images" key is skipped and does not make
    [get_job_outputs] fail: the method logs a warning naming the node's key
    and runs as it does on the record without that node (same result, same
    requests, same world afterwards); its run is that of downloading, in
    order, the image references of the other nodes, so that, when those
    downloads succeed, it returns their tuples, one for every reference of
    the other nodes that has a filename. *)
Theorem get_job_outputs_skips_node_without_images Env
    (httpx_send : Request -> Env -> result Response * Env)
    self (h h' before after : pydict) (k : pystr) (n : pydict) w :
  dict_get h (lit "outputs") = Some (JDict (before ++ (k, JDict n) :: after)) ->
  dict_get h' (lit "outputs") = Some (JDict (before ++ after)) ->
  dict_get n (lit "images") = None ->
  dict_wf (before ++ (k, JDict n) :: after) ->
  outputs_ok (before ++ after) = true ->
  same_run (get_job_outputs httpx_send self (JDict h) w)
           (get_job_outputs httpx_send self (JDict h') w)
  /\ In (Log WARNING (Outputs_no_images (JStr k)))
        (trace (get_job_outputs httpx_send self (JDict h) w))
  /\ same_run (get_job_outputs httpx_send self (JDict h) w)
              (download_each httpx_send self
                 (choose image_ref (image_refs (before ++ after))) w)
  /\ (forall l,
        value (download_each httpx_send self
                 (choose image_ref (image_refs (before ++ after))) w) = Ok l ->
        value (get_job_outputs httpx_send self (JDict h) w) = Ok l
        /\ Forall2 (fun image o => image_ref image = Some (asked o))
                   (filter has_filename (image_refs (before ++ after))) l).
Proof.
  intros Hout Hout' Hn Hwf Hok'.
  assert (Hnode : node_ok (JDict n) = true) by (cbn [node_ok]; now rewrite Hn).
  assert (Himg : node_images (JDict n) = []) by (cbn [node_images]; now rewrite Hn).
  assert (Hhas : has_images (JDict n) = false)
    by (cbn [has_images]; unfold dict_has; now rewrite Hn).
  assert (Hok : outputs_ok (before ++ (k, JDict n) :: after) = true).
  { rewrite outputs_ok_app in Hok' |- *. apply andb_true_iff in Hok' as [Hb Ha].
    rewrite Hb. cbn [outputs_ok forallb snd andb].
    rewrite Hnode. exact Ha. }
  assert (Hwf' : dict_wf (before ++ after)).
  { unfold dict_wf, dict_keys in *. rewrite map_app in *.
    cbn [map fst] in Hwf. now apply NoDup_remove_1 in Hwf. }
  assert (Hrefs : image_refs (before ++ (k, JDict n) :: after)
                  = image_refs (before ++ after)).
  { rewrite !image_refs_app. unfold image_refs at 2.
    cbn [flat_map snd]. now rewrite Himg. }
  destruct (@get_job_outputs_run Env httpx_send self h _ w Hout Hwf Hok)
    as [Hrun [[tr Htr] _]].
  destruct (@get_job_outputs_run Env httpx_send self h' _ w Hout' Hwf' Hok')
    as [Hrun' _].
  rewrite Hrefs in Hrun.
  split; [|split; [|split]].
  - eapply same_run_trans; [exact Hrun|]. now apply same_run_sym.
  - rewrite Htr, collect_trace_app. apply in_or_app. left.
    apply in_or_app. right. unfold collect_trace. cbn [flat_map fst snd].
    rewrite Hhas. right. now left.
  - exact Hrun.
  - intros l Hl. destruct Hrun as [Hv _]. rewrite Hl in Hv.
    split; [exact Hv|].
    destruct (choose_filter (image_refs (before ++ after))
                (image_refs_are_dicts (before ++ after) Hok')) as [Hc Hall].
    apply Forall2_asked.
    rewrite (@download_each_asked Env httpx_send self _ w l Hl), Hc.
    now apply choose_all.
Qed.

Lemma get_job_outputs_skips_node_without_images_witness :
  (same_run (get_job_outputs (Demo.server JNull) Demo.client
               (JDict Demo.mixed_record) 0)
            (get_job_outputs (Demo.server JNull) Demo.client
               (JDict Demo.images_record) 0)
   /\ In (Log WARNING (Outputs_no_images (JStr (lit "8"))))
         (trace (get_job_outputs (Demo.server JNull) Demo.client
                   (JDict Demo.mixed_record) 0)))
  /\ value (get_job_outputs (Demo.server JNull) Demo.client
              (JDict Demo.mixed_record) 0)
     = Ok [(JStr (lit "output"), JStr (lit ""), JStr (lit "a.png"), Demo.png);
           (JStr (lit "output"), JStr (lit ""), JStr (lit "b.png"), Demo.png)].
Proof.
  assert (Hwf : dict_wf ([] ++ (lit "8", JDict Demo.text_node)
                            :: [(lit "9", Demo.mixed_node)])) by dict_wf_tac.
  destruct (@get_job_outputs_skips_node_without_images nat (Demo.server JNull)
              Demo.client Demo.mixed_record Demo.images_record
              [] [(lit "9", Demo.mixed_node)] (lit "8") Demo.text_node 0
              eq_refl eq_refl eq_refl Hwf eq_refl)
    as [Hsame [Hwarn [_ Htuples]]].
  split; [split; assumption|].
  exact (proj1 (Htuples _ eq_refl)).
Defined.

(** C10.  For a history record as the service writes it and every image
    reference of it that has a "filename" [f]: a missing "subfolder" is
    read as the empty string and a missing "type" as "output";
    [get_job_outputs] fails only if a download does, the files it asks for
    include [f] under that subfolder and type, and the list it returns
    holds a tuple with these three values; when the reference is the only
    one of the record, the method sends exactly the download request built
    from them and returns the one tuple made of them and the bytes
    received. *)
Theorem get_job_outputs_default_fields Env
    (httpx_send : Request -> Env -> result Response * Env)
    self (h outputs : pydict) w (i : pydict) f :
  dict_get h (lit "outputs") = Some (JDict outputs) ->
  dict_wf outputs ->
  outputs_ok outputs = true ->
  In (JDict i) (image_refs outputs) ->
  dict_get i (lit "filename") = Some f ->
  let s := field_or i (lit "subfolder") (JStr (lit "")) in
  let t := field_or i (lit "type") (JStr (lit "output")) in
  (dict_get i (lit "subfolder") = None -> s = JStr (lit ""))
  /\ (dict_get i (lit "type") = None -> t = JStr (lit "output"))
  /\ same_run (get_job_outputs httpx_send self (JDict h) w)
              (download_each httpx_send self
                 (choose image_ref (image_refs outputs)) w)
  /\ In (f, s, t) (choose image_ref (image_refs outputs))
  /\ (forall l,
        value (get_job_outputs httpx_send self (JDict h) w) = Ok l ->
        exists b, In (t, s, f, b) l)
  /\ (image_refs outputs = [JDict i] ->
      forall b,
        value (download_output httpx_send self f s t w) = Ok b ->
        value (get_job_outputs httpx_send self (JDict h) w) = Ok [(t, s, f, b)]
        /\ requests (trace (get_job_outputs httpx_send self (JDict h) w))
           = [Http (view_request self f s t)]).
Proof.
  intros Hout Hwf Hok Hin Hf s t.
  assert (Hr : image_ref (JDict i) = Some (f, s, t)).
  { unfold image_ref. now rewrite Hf. }
  destruct (@get_job_outputs_run Env httpx_send self h outputs w Hout Hwf Hok)
    as [Hrun _].
  assert (Hasked : In (f, s, t) (choose image_ref (image_refs outputs)))
    by (eapply In_choose; eauto).
  repeat split.
  - intros Hs. subst s. unfold field_or. now rewrite Hs.
  - intros Ht. subst t. unfold field_or. now rewrite Ht.
  - apply Hrun.
  - apply Hrun.
  - apply Hrun.
  - exact Hasked.
  - intros l Hl. destruct Hrun as [Hv _]. rewrite Hl in Hv. symmetry in Hv.
    rewrite <- (@download_each_asked Env httpx_send self _ w l Hv) in Hasked.
    apply in_map_iff in Hasked as [[[[t' s'] f'] b] [Ho Hinl]].
    cbn [asked] in Ho. injection Ho as -> -> ->. now exists b.
  - now apply (@single_image_run Env httpx_send self h outputs w i f s t b).
  - now apply (@single_image_run Env httpx_send self h outputs w i f s t b).
Qed.

Lemma get_job_outputs_default_fields_witness :
  In (JStr (lit "b.png"), JStr (lit ""), JStr (lit "output"))
     (choose image_ref (image_refs Demo.mixed_outputs))
  /\ exists b,
       In (JStr (lit "output"), JStr (lit ""), JStr (lit "b.png"), b)
          [(JStr (lit "output"), JStr (lit ""), JStr (lit "a.png"), Demo.png);
           (JStr (lit "output"), JStr (lit ""), JStr (lit "b.png"), Demo.png)].
Proof.
  assert (Hwf : dict_wf Demo.mixed_outputs) by dict_wf_tac.
  assert (Hin : In (JDict Demo.bare_image) (image_refs Demo.mixed_outputs))
    by (cbv; auto).
  destruct (@get_job_outputs_default_fields nat (Demo.server JNull) Demo.client
              Demo.mixed_record Demo.mixed_outputs 0 Demo.bare_image
              (JStr (lit "b.png")) eq_refl Hwf eq_refl Hin eq_refl)
    as [_ [_ [_ [Hasked [Hl _]]]]].
  split; [exact Hasked|].
  exact (Hl _ eq_refl).
Defined.

(** * Further properties *)

Unset Implicit Arguments.

(** ** Assignments *)

Lemma dict_set_set (d : pydict) k v1 v2 :
  dict_set (dict_set d k v1) k v2 = dict_set d k v2.
Proof.
  induction d as [|[k' v'] d IH]; cbn [dict_set].
  - now rewrite str_eqb_refl.
  - destruct (str_eqb k' k) eqn:E; cbn [dict_set]; rewrite E; [reflexivity|].
    now rewrite IH.
Qed.

Lemma dict_keys_set (d : pydict) k v v' :
  dict_get d k = Some v' -> dict_keys (dict_set d k v) = dict_keys d.
Proof.
  unfold dict_keys. induction d as [|[k0 v0] d IH]; cbn [dict_get dict_set map fst];
    [discriminate|].
  destruct (str_eqb k0 k); [reflexivity|].
  intros H. cbn [map fst]. now rewrite IH.
Qed.

(** What an assignment does to a template that has the addressed inputs
    object, and to one that has not. *)
Lemma write_input_shape index field v self :
  has_inputs index self ->
  exists nodes node inputs,
    workflow self = JDict nodes
    /\ dict_get nodes index = Some (JDict node)
    /\ dict_get node (lit "inputs") = Some (JDict inputs)
    /\ write_input index field v self
       = (Ok tt,
          {| workflow :=
               JDict (dict_set nodes index
                        (JDict (dict_set node (lit "inputs")
                                  (JDict (dict_set inputs field v)))));
             endpoint := endpoint self |}).
Proof.
  unfold has_inputs, inputs_of, write_input.
  destruct self as [wf ep]; cbn [workflow endpoint].
  destruct wf as [| | | | | |nodes]; try congruence.
  cbn [getitem]. destruct (dict_get nodes index) as [node|] eqn:En; [|congruence].
  destruct node as [| | | | | |node]; try congruence.
  cbn [getitem]. destruct (dict_get node (lit "inputs")) as [inputs|] eqn:Ei;
    [|congruence].
  destruct inputs as [| | | | | |inputs]; try congruence.
  intros _. exists nodes, node, inputs. auto.
Qed.

Lemma write_input_failure index field v self :
  ~ has_inputs index self ->
  snd (write_input index field v self) = self
  /\ exists e, fst (write_input index field v self) = Raise e.
Proof.
  intros Hno.
  destruct (fst (write_input index field v self)) as [[]|e] eqn:E.
  - exfalso. apply Hno. now apply (@write_input_ok_iff index field v self).
  - split; [|now exists e].
    revert E. unfold write_input.
    destruct (getitem (workflow self) (JStr index)) as [node|]; [|reflexivity].
    destruct (getitem node (JStr (lit "inputs"))) as [inputs|]; [|reflexivity].
    destruct (setitem inputs field v); [discriminate|reflexivity].
Qed.

Lemma has_inputs_dec index self : has_inputs index self \/ ~ has_inputs index self.
Proof.
  unfold has_inputs. destruct (inputs_of index self); [left|right]; congruence.
Qed.

Lemma write_input_frame index field v self index' field' :
  index <> index' \/ field <> field' ->
  read_input index' field' (snd (write_input index field v self))
  = read_input index' field' self.
Proof.
  intros Hne. destruct (has_inputs_dec index self) as [Hin|Hno].
  - destruct (write_input_shape index field v self Hin)
      as [nodes [node [inputs [Hwf [Hn [Hi ->]]]]]].
    unfold read_input. cbn [snd workflow]. rewrite Hwf. cbn [getitem].
    destruct (str_eqb index index') eqn:E.
    + apply str_eqb_eq in E. subst index'.
      rewrite dict_get_set_same, Hn. cbn [rbind getitem].
      rewrite dict_get_set_same, Hi. cbn [rbind getitem].
      destruct Hne as [Hne|Hne]; [congruence|].
      now rewrite (@dict_get_set_other inputs field field' v Hne).
    + apply str_eqb_neq in E. now rewrite (@dict_get_set_other nodes index index' _ E).
  - now rewrite (proj1 (write_input_failure index field v self Hno)).
Qed.

Lemma write_input_twice index field v1 v2 self :
  fst (write_input index field v2 self) = Ok tt ->
  snd (write_input index field v2 (snd (write_input index field v1 self)))
  = snd (write_input index field v2 self).
Proof.
  intros Hok. apply write_input_ok_iff in Hok.
  destruct (write_input_shape index field v1 self Hok)
    as [nodes [node [inputs [Hwf [Hn [Hi H1]]]]]].
  destruct (write_input_shape index field v2 self Hok)
    as [nodes' [node' [inputs' [Hwf' [Hn' [Hi' H2]]]]]].
  rewrite Hwf in Hwf'. injection Hwf' as <-.
  rewrite Hn in Hn'. injection Hn' as <-.
  rewrite Hi in Hi'. injection Hi' as <-.
  rewrite H1, H2. cbn [snd].
  unfold write_input. cbn [workflow endpoint getitem].
  rewrite dict_get_set_same. cbn [getitem].
  rewrite dict_get_set_same. cbn [setitem with_item snd].
  now rewrite !dict_set_set.
Qed.

Lemma write_input_keeps index field v self :
  endpoint (snd (write_input index field v self)) = endpoint self
  /\ node_keys (snd (write_input index field v self)) = node_keys self
  /\ forall index', has_inputs index' self ->
                    has_inputs index' (snd (write_input index field v self)).
Proof.
  destruct (has_inputs_dec index self) as [Hin|Hno].
  - repeat split.
    + destruct (write_input_shape index field v self Hin)
        as [nodes [node [inputs [Hwf [Hn [Hi ->]]]]]]. reflexivity.
    + destruct (write_input_shape index field v self Hin)
        as [nodes [node [inputs [Hwf [Hn [Hi ->]]]]]].
      unfold node_keys. cbn [snd workflow]. rewrite Hwf.
      now apply dict_keys_set with (JDict node).
    + intros index' H'. now apply (@write_input_keeps_inputs index field v self index').
  - rewrite (proj1 (write_input_failure index field v self Hno)). auto.
Qed.

(** Every setter is one test followed by one write. *)
Lemma assign_unfold (E K P N : pystr) a self :
  assign E K P N a self
  = if accepted a
    then write_input (node_of E K P N (target a)) (field_of (target a))
           (stored a) self
    else (Raise ValueError, self).
Proof. destruct a; reflexivity. Qed.

Lemma read_unfold (E K P N : pystr) f self :
  read E K P N f self = read_input (node_of E K P N f) (field_of f) self.
Proof. destruct f; reflexivity. Qed.

(** X1.  An assignment to width, height, seed, positive or negative that
    raises, whatever it raises, leaves the client as it was: no setter
    changes the template and then fails. *)
Theorem failed_assignment_changes_nothing (E K P N : pystr) a self e :
  fst (assign E K P N a self) = Raise e ->
  snd (assign E K P N a self) = self.
Proof.
  rewrite assign_unfold. destruct (accepted a); [|reflexivity].
  intros Hfail.
  destruct (has_inputs_dec (node_of E K P N (target a)) self) as [Hin|Hno].
  - destruct (write_input_shape _ (field_of (target a)) (stored a) self Hin)
      as [nodes [node [inputs [_ [_ [_ Hw]]]]]].
    rewrite Hw in Hfail. discriminate.
  - now apply write_input_failure.
Qed.

Lemma failed_assignment_changes_nothing_witness :
  snd (assign (lit "5") (lit "3") (lit "6") (lit "7") (Set_positive (lit " "))
         Demo.client) = Demo.client
  /\ snd (assign (lit "5") (lit "3") (lit "6") (lit "404") (Set_negative (lit "x"))
            Demo.client) = Demo.client.
Proof.
  split.
  - apply failed_assignment_changes_nothing with (e := ValueError). reflexivity.
  - apply failed_assignment_changes_nothing with (e := KeyError). reflexivity.
Defined.

(** X2.  An assignment succeeds exactly when its value passes the setter's
    test and the template has the inputs object of the addressed node; a
    value that fails the test raises [ValueError] whatever the template
    holds, because the test comes first. *)
Theorem assignment_succeeds_iff (E K P N : pystr) a self :
  (fst (assign E K P N a self) = Ok tt
   <-> accepted a = true /\ has_inputs (node_of E K P N (target a)) self)
  /\ (accepted a = false -> assign E K P N a self = (Raise ValueError, self)).
Proof.
  rewrite assign_unfold. destruct (accepted a).
  - split; [|discriminate].
    rewrite (@write_input_ok_iff (node_of E K P N (target a))
               (field_of (target a)) (stored a) self).
    tauto.
  - split; [|reflexivity]. cbn [fst]. split; [discriminate|]. intros [H _].
    discriminate.
Qed.

Lemma assignment_succeeds_iff_witness :
  fst (assign (lit "5") (lit "3") (lit "6") (lit "7") (Set_seed 42) Demo.client)
    = Ok tt
  /\ assign (lit "5") (lit "3") (lit "6") (lit "404") (Set_height 0) Demo.client
     = (Raise ValueError, Demo.client).
Proof.
  split.
  - apply (proj1 (assignment_succeeds_iff (lit "5") (lit "3") (lit "6") (lit "7")
                    (Set_seed 42) Demo.client)).
    split; [reflexivity | vm_compute; discriminate].
  - apply (proj2 (assignment_succeeds_iff (lit "5") (lit "3") (lit "6") (lit "404")
                    (Set_height 0) Demo.client)).
    reflexivity.
Defined.

Lemma slots_apart (E K P N : pystr) f f' :
  f <> f' -> P <> N ->
  node_of E K P N f <> node_of E K P N f' \/ field_of f <> field_of f'.
Proof.
  intros Hf HPN.
  destruct f, f'; try congruence; cbn [node_of field_of];
    try (right; intros H; vm_compute in H; discriminate H);
    left; congruence.
Qed.

(** X3.  When the two prompt nodes are distinct, an assignment to one
    property, successful or not, leaves what each of the other four
    properties reads (a value or an exception) as it was: width and height
    share a node but not a key, the two prompts share a key but not a
    node. *)
Theorem assignment_leaves_other_properties (E K P N : pystr) a f self :
  P <> N ->
  target a <> f ->
  read E K P N f (snd (assign E K P N a self)) = read E K P N f self.
Proof.
  intros HPN Hf. rewrite assign_unfold, !read_unfold.
  destruct (accepted a); [|reflexivity].
  apply write_input_frame. now apply slots_apart.
Qed.

Lemma assignment_leaves_other_properties_witness :
  read (lit "5") (lit "3") (lit "6") (lit "7") Negative
       (snd (assign (lit "5") (lit "3") (lit "6") (lit "7")
               (Set_positive (lit "A tiger.")) Demo.client))
  = Ok (JStr (lit "text, watermark")).
Proof.
  rewrite assignment_leaves_other_properties.
  - reflexivity.
  - intros H. vm_compute in H. discriminate H.
  - discriminate.
Defined.

Lemma assign_keeps (E K P N : pystr) a self :
  endpoint (snd (assign E K P N a self)) = endpoint self
  /\ node_keys (snd (assign E K P N a self)) = node_keys self
  /\ forall index, has_inputs index self ->
                   has_inputs index (snd (assign E K P N a self)).
Proof.
  rewrite assign_unfold. destruct (accepted a); [|auto].
  apply write_input_keeps.
Qed.

(** X4.  Whatever assignments a caller makes, in whatever order and
    whether or not some of them raise, the client keeps its endpoint, its
    template keeps the same node indices in the same order, and every node
    that had an inputs object still has one: the setters never add, drop
    or reorder a node. *)
Theorem assignments_keep_the_template_shape (E K P N : pystr) l :
  forall self,
    endpoint (assign_all E K P N l self) = endpoint self
    /\ node_keys (assign_all E K P N l self) = node_keys self
    /\ forall index, has_inputs index self ->
                     has_inputs index (assign_all E K P N l self).
Proof.
  induction l as [|a l IH]; intros self; cbn [assign_all]; [auto|].
  destruct (IH (snd (assign E K P N a self))) as [He [Hk Hi]].
  destruct (assign_keeps E K P N a self) as [He' [Hk' Hi']].
  repeat split; try congruence. auto.
Qed.

Lemma assignments_keep_the_template_shape_witness :
  node_keys (assign_all (lit "5") (lit "3") (lit "6") (lit "7")
               [Set_width 768; Set_seed 0; Set_negative []] Demo.client)
  = [lit "3"; lit "5"; lit "6"; lit "7"]
  /\ has_inputs (lit "6")
       (assign_all (lit "5") (lit "3") (lit "6") (lit "7")
          [Set_width 768; Set_seed 0; Set_negative []] Demo.client).
Proof.
  destruct (assignments_keep_the_template_shape (lit "5") (lit "3") (lit "6")
              (lit "7") [Set_width 768; Set_seed 0; Set_negative []] Demo.client)
    as [_ [Hk Hi]].
  split.
  - rewrite Hk. reflexivity.
  - apply Hi. vm_compute. discriminate.
Defined.

(** X5.  Of two assignments to the same property the second one wins
    outright: when the second assignment succeeds on the client, making it
    after any first assignment to that property leaves exactly the client
    that making it alone leaves. *)
Theorem second_assignment_wins (E K P N : pystr) a1 a2 self :
  target a1 = target a2 ->
  fst (assign E K P N a2 self) = Ok tt ->
  snd (assign E K P N a2 (snd (assign E K P N a1 self)))
  = snd (assign E K P N a2 self).
Proof.
  intros Ht Hok. rewrite (assign_unfold E K P N a1 self).
  destruct (accepted a1); [|reflexivity].
  rewrite !(assign_unfold E K P N a2) in *.
  destruct (accepted a2); [|discriminate].
  rewrite Ht. now apply write_input_twice.
Qed.

Lemma second_assignment_wins_witness :
  snd (assign (lit "5") (lit "3") (lit "6") (lit "7") (Set_width 1024)
         (snd (assign (lit "5") (lit "3") (lit "6") (lit "7") (Set_width 768)
                 Demo.client)))
  = snd (assign (lit "5") (lit "3") (lit "6") (lit "7") (Set_width 1024)
           Demo.client).
Proof.
  apply second_assignment_wins; reflexivity.
Defined.

(** ** The three calls, whatever the server answers *)

Lemma submit_job_outcome Env
    (httpx_send : Request -> Env -> result Response * Env)
    (uuid4 : Env -> pystr * Env) self w :
  let rq := prompt_request self (fst (uuid4 w)) in
  let a := httpx_send rq (snd (uuid4 w)) in
  let o := submit_job httpx_send uuid4 self w in
  world o = snd a
  /\ requests (trace o) = [Http rq]
  /\ value o = rbind (decoded (fst a))
                 (fun j => get j (lit "prompt_id") (JStr (lit "")))
  /\ (forall e, value o = Raise e -> warnings (trace o) = [])
  /\ (forall j, value o = Ok j ->
        warnings (trace o)
        = if truthy j then []
          else match fst a with
               | Ok r => [Log WARNING (Submit_no_prompt_id (status_code r))]
               | Raise _ => []
               end).
Proof.
  unfold prompt_request, submit_job, bind, new_uuid, httpx_post, httpx_request,
    log, lift, raise_for_status, response_json, ret, raise, decoded, checked.
  destruct (uuid4 w) as [client_id w1]. cbn [fst snd].
  destruct (httpx_send _ w1) as [[r|e] w2]; cbn [fst snd rbind];
    [|cbn; repeat split; auto; discriminate].
  destruct (is_success r); cbn [rbind];
    [|cbn; repeat split; auto; discriminate].
  destruct (json_value r) as [j|]; cbn [rbind];
    [|cbn; repeat split; auto; discriminate].
  destruct j as [| | | | | |d]; cbn [get];
    try (cbn; repeat split; auto; discriminate).
  destruct (truthy (match dict_get d (lit "prompt_id") with
                    | Some v => v
                    | None => JStr (lit "")
                    end)) eqn:Et;
    cbn; repeat split; auto; try discriminate;
    intros j [= <-]; now rewrite Et.
Qed.

(** X6.  Every run of [submit_job] sends exactly one request, the POST of
    the template and of the client id just drawn to [endpoint + "prompt"],
    and leaves the world as that request left it: the method never
    retries, whatever the answer. *)
Theorem submit_job_sends_one_request Env
    (httpx_send : Request -> Env -> result Response * Env)
    (uuid4 : Env -> pystr * Env) self w :
  requests (trace (submit_job httpx_send uuid4 self w))
  = [Http (prompt_request self (fst (uuid4 w)))]
  /\ world (submit_job httpx_send uuid4 self w)
     = snd (httpx_send (prompt_request self (fst (uuid4 w))) (snd (uuid4 w))).
Proof.
  destruct (submit_job_outcome Env httpx_send uuid4 self w) as [Hw [Hr _]].
  auto.
Qed.



(** X8.  [submit_job] returns whatever the response object holds under
    "prompt_id", string or not, and the warning tells a falsy value from a
    truthy one: it is logged exactly when that value is null, false, zero
    or empty. *)
Theorem submit_job_returns_any_prompt_id Env
    (httpx_send : Request -> Env -> result Response * Env)
    (uuid4 : Env -> pystr * Env) self w r d v :
  fst (httpx_send (prompt_request self (fst (uuid4 w))) (snd (uuid4 w))) = Ok r ->
  is_success r = true ->
  json_value r = Some (JDict d) ->
  dict_get d (lit "prompt_id") = Some v ->
  value (submit_job httpx_send uuid4 self w) = Ok v
  /\ (warnings (trace (submit_job httpx_send uuid4 self w)) = []
      <-> truthy v = true).
Proof.
  intros Hr Hs Hj Hd.
  destruct (submit_job_outcome Env httpx_send uuid4 self w)
    as [_ [_ [Hv [_ Hw]]]].
  cbv zeta in *. unfold decoded, checked in Hv.
  rewrite Hr, Hs in Hv. cbn [rbind] in Hv. rewrite Hj in Hv.
  cbn [rbind get] in Hv. rewrite Hd in Hv.
  split; [exact Hv|].
  rewrite (Hw v Hv), Hr. destruct (truthy v); split; congruence.
Qed.

Lemma submit_job_returns_any_prompt_id_witness :
  value (submit_job (Demo.server (JDict [(lit "prompt_id", JInt 17)]))
           Demo.uuid Demo.client 0) = Ok (JInt 17)
  /\ value (submit_job (Demo.server (JDict [(lit "prompt_id", JNull)]))
              Demo.uuid Demo.client 0) = Ok JNull.
Proof.
  split.
  - apply (submit_job_returns_any_prompt_id nat
             (Demo.server (JDict [(lit "prompt_id", JInt 17)]))
             Demo.uuid Demo.client 0 _ _ (JInt 17) eq_refl eq_refl eq_refl eq_refl).
  - apply (submit_job_returns_any_prompt_id nat
             (Demo.server (JDict [(lit "prompt_id", JNull)]))
             Demo.uuid Demo.client 0 _ _ JNull eq_refl eq_refl eq_refl eq_refl).
Defined.

Lemma query_job_outcome Env
    (httpx_send : Request -> Env -> result Response * Env) self p w :
  let rq := history_request self p in
  let a := httpx_send rq w in
  let o := query_job httpx_send self p w in
  world o = snd a
  /\ requests (trace o) = [Http rq]
  /\ warnings (trace o) = []
  /\ value o = rbind (decoded (fst a))
                 (fun history =>
                    match history with
                    | JDict m =>
                        match dict_get m p with
                        | Some record => Ok record
                        | None => Raise KeyError
                        end
                    | _ => Raise AttributeError
                    end).
Proof.
  unfold history_request, query_job, bind, httpx_get, httpx_request,
    log, lift, raise_for_status, response_json, ret, raise, decoded, checked.
  destruct (httpx_send _ w) as [[r|e] w2]; cbn [fst snd rbind];
    [|cbn; auto].
  destruct (is_success r); cbn [rbind]; [|cbn; auto].
  destruct (json_value r) as [j|]; cbn [rbind]; [|cbn; auto].
  destruct j as [| | | | | |m]; cbn [keys]; try (cbn; auto).
  unfold dict_has. destruct (dict_get m p) as [record|] eqn:Ep; cbn;
    rewrite ?Ep; auto.
Qed.

(** X9.  Every run of [query_job] sends exactly one request, the GET of
    [endpoint + "history/" + prompt_id] without parameters, leaves the
    world as that request left it, and logs nothing at WARNING level. *)
Theorem query_job_sends_one_request Env
    (httpx_send : Request -> Env -> result Response * Env) self p w :
  requests (trace (query_job httpx_send self p w)) = [Http (history_request self p)]
  /\ world (query_job httpx_send self p w)
     = snd (httpx_send (history_request self p) w)
  /\ warnings (trace (query_job httpx_send self p w)) = [].
Proof.
  destruct (query_job_outcome Env httpx_send self p w) as [Hw [Hr [Hn _]]].
  auto.
Qed.



(** X11.  Every run of [download_output] sends exactly one request, the
    GET of [endpoint + "view"] with the three parameters, and logs no
    warning; it returns the body of a 2xx response unread and undecoded,
    raises [HTTPStatusError] with the status of any other response, and
    passes a transport error on. *)
Theorem download_output_outcome Env
    (httpx_send : Request -> Env -> result Response * Env)
    self filename subfolder folder_type w :
  let rq := view_request self filename subfolder folder_type in
  let o := download_output httpx_send self filename subfolder folder_type w in
  requests (trace o) = [Http rq]
  /\ warnings (trace o) = []
  /\ world o = snd (httpx_send rq w)
  /\ value o = rbind (checked (fst (httpx_send rq w)))
                 (fun response => Ok (content response)).
Proof.
  cbv zeta.
  destruct (@download_output_trace Env httpx_send self filename subfolder
              folder_type w) as [Hr Hn].
  destruct (@download_output_value Env httpx_send self filename subfolder
              folder_type w) as [Hw Hv].
  cbv zeta in *. repeat split; auto.
  rewrite Hv. unfold checked.
  destruct (fst (httpx_send _ w)) as [r|e]; [|reflexivity].
  destruct (is_success r); reflexivity.
Qed.

(** ** The downloads of [get_job_outputs] *)

(** When every download succeeds, each file asked for has been requested,
    in order. *)
Lemma download_each_done Env
    (httpx_send : Request -> Env -> result Response * Env) self refs :
  forall w l,
    value (download_each httpx_send self refs w) = Ok l ->
    requests (trace (download_each httpx_send self refs w))
    = view_requests self refs.
Proof.
  induction refs as [|[[f s] t] refs IH]; intros w l; [reflexivity|].
  rewrite (@download_each_cons Env httpx_send self f s t refs w). cbv zeta.
  destruct (@download_output_trace Env httpx_send self f s t w) as [Hr _].
  cbv zeta in Hr.
  destruct (download_output httpx_send self f s t w) as [[data|e] w1 tr1];
    cbn [value world trace] in *; [|discriminate].
  specialize (IH w1).
  destruct (value (download_each httpx_send self refs w1)) as [l'|e'] eqn:Ev;
    [|discriminate].
  intros _. rewrite (@requests_app tr1), Hr, (IH l' eq_refl). reflexivity.
Qed.

(** When a download fails, it is the last request: the files before it
    were downloaded, its exception is the one that comes out, and nothing
    after it is requested. *)
Lemma download_each_stops Env
    (httpx_send : Request -> Env -> result Response * Env) self refs :
  forall w e,
    value (download_each httpx_send self refs w) = Raise e ->
    exists sent f s t rest l0,
      refs = sent ++ (f, s, t) :: rest
      /\ value (download_each httpx_send self sent w) = Ok l0
      /\ value (download_output httpx_send self f s t
                  (world (download_each httpx_send self sent w))) = Raise e
      /\ requests (trace (download_each httpx_send self refs w))
         = view_requests self (sent ++ [(f, s, t)]).
Proof.
  induction refs as [|[[f s] t] refs IH]; intros w e; [discriminate|].
  rewrite (@download_each_cons Env httpx_send self f s t refs w). cbv zeta.
  destruct (@download_output_trace Env httpx_send self f s t w) as [Hr _].
  cbv zeta in Hr.
  destruct (download_output httpx_send self f s t w) as [[data|e'] w1 tr1] eqn:Hd;
    cbn [value world trace] in *.
  - intros He.
    assert (He' : value (download_each httpx_send self refs w1) = Raise e).
    { destruct (value (download_each httpx_send self refs w1));
        [discriminate | exact He]. }
    destruct (IH w1 e He') as [sent [f' [s' [t' [rest [l0 [Hrefs [Hl0 [Hf Hreq]]]]]]]]].
    exists ((f, s, t) :: sent), f', s', t', rest, ((t, s, f, data) :: l0).
    rewrite (@download_each_cons Env httpx_send self f s t sent w). cbv zeta.
    rewrite Hd. cbn [value world trace]. rewrite Hl0. cbn [value world].
    rewrite (@requests_app tr1), Hr, Hreq.
    repeat split; auto. cbn [app]. now rewrite Hrefs.
  - intros [= <-]. exists [], f, s, t, refs, [].
    cbn [download_each app]. unfold ret. cbn [value world].
    rewrite Hd. cbn [value]. rewrite Hr. auto.
Qed.

(** X12.  On a record as the service writes it, [get_job_outputs] asks for
    the image references that have a filename, in order from the first,
    and for nothing else.  When it returns, it has sent the download
    request of each of them and its tuples are theirs.  When it raises,
    the downloads before some reference succeeded, the download of that
    reference raised the exception that comes out, and its request is the
    last one sent: no reference after it is requested. *)
Theorem get_job_outputs_requests Env
    (httpx_send : Request -> Env -> result Response * Env)
    self (h outputs : pydict) w :
  dict_get h (lit "outputs") = Some (JDict outputs) ->
  dict_wf outputs ->
  outputs_ok outputs = true ->
  (forall l,
     value (get_job_outputs httpx_send self (JDict h) w) = Ok l ->
     requests (trace (get_job_outputs httpx_send self (JDict h) w))
     = view_requests self (choose image_ref (image_refs outputs))
     /\ map asked l = choose image_ref (image_refs outputs))
  /\ (forall e,
        value (get_job_outputs httpx_send self (JDict h) w) = Raise e ->
        exists sent f s t rest l0,
          choose image_ref (image_refs outputs) = sent ++ (f, s, t) :: rest
          /\ value (download_each httpx_send self sent w) = Ok l0
          /\ value (download_output httpx_send self f s t
                      (world (download_each httpx_send self sent w))) = Raise e
          /\ requests (trace (get_job_outputs httpx_send self (JDict h) w))
             = view_requests self (sent ++ [(f, s, t)])).
Proof.
  intros Hout Hwf Hok.
  destruct (@get_job_outputs_run Env httpx_send self h outputs w Hout Hwf Hok)
    as [[Hv [_ Hr]] _].
  rewrite Hr, Hv. split.
  - intros l Hl. split.
    + now apply download_each_done with l.
    + now apply (@download_each_asked Env httpx_send self _ w l).
  - intros e He. now apply download_each_stops.
Qed.

Lemma get_job_outputs_requests_witness :
  requests (trace (get_job_outputs (Demo.server JNull) Demo.client
                     (JDict Demo.mixed_record) 0))
  = view_requests Demo.client (choose image_ref (image_refs Demo.mixed_outputs))
  /\ requests (trace (get_job_outputs Demo.down Demo.client
                        (JDict Demo.mixed_record) 0))
     = view_requests Demo.client
         [(JStr (lit "a.png"), JStr (lit ""), JStr (lit "output"))].
Proof.
  assert (Hwf : dict_wf Demo.mixed_outputs) by dict_wf_tac.
  split.
  - destruct (get_job_outputs_requests nat (Demo.server JNull) Demo.client
                Demo.mixed_record Demo.mixed_outputs 0 eq_refl Hwf eq_refl)
      as [Hdone _].
    exact (proj1 (Hdone _ eq_refl)).
  - destruct (get_job_outputs_requests nat Demo.down Demo.client
                Demo.mixed_record Demo.mixed_outputs 0 eq_refl Hwf eq_refl)
      as [_ Hstop].
    destruct (Hstop (HTTPStatusError 503) eq_refl)
      as [sent [f [s [t [rest [l0 [Hrefs [Hl0 [_ Hreq]]]]]]]]].
    rewrite Hreq.
    destruct sent as [|[[f1 s1] t1] sent].
    + cbn [app] in Hrefs. injection Hrefs as <- <- <- _. reflexivity.
    + exfalso. cbn [app] in Hrefs. injection Hrefs as <- <- <- _.
      rewrite (@download_each_cons nat Demo.down Demo.client) in Hl0.
      discriminate Hl0.
Defined.

(** X13.  On a record as the service writes it whose outputs section holds
    no image reference (no node at all, or only nodes without images or
    with an empty list), [get_job_outputs] returns the empty list, sends
    nothing and leaves the world as it was. *)
Theorem get_job_outputs_without_images Env
    (httpx_send : Request -> Env -> result Response * Env)
    self (h outputs : pydict) w :
  dict_get h (lit "outputs") = Some (JDict outputs) ->
  dict_wf outputs ->
  outputs_ok outputs = true ->
  image_refs outputs = [] ->
  value (get_job_outputs httpx_send self (JDict h) w) = Ok []
  /\ world (get_job_outputs httpx_send self (JDict h) w) = w
  /\ requests (trace (get_job_outputs httpx_send self (JDict h) w)) = [].
Proof.
  intros Hout Hwf Hok Hrefs.
  destruct (@get_job_outputs_run Env httpx_send self h outputs w Hout Hwf Hok)
    as [[Hv [Hw Hr]] _].
  rewrite Hrefs in Hv, Hw, Hr. auto.
Qed.

Lemma get_job_outputs_without_images_witness :
  value (get_job_outputs (Demo.server JNull) Demo.client
           (JDict [(lit "outputs", JDict [(lit "8", JDict Demo.text_node)])]) 0)
  = Ok [].
Proof.
  apply (get_job_outputs_without_images nat (Demo.server JNull) Demo.client
           [(lit "outputs", JDict [(lit "8", JDict Demo.text_node)])]
           [(lit "8", JDict Demo.text_node)] 0 eq_refl).
  - dict_wf_tac.
  - reflexivity.
  - reflexivity.
Defined.

Lemma for_each_app Env A S (xs ys : list A) (body : S -> A -> M Env S) :
  forall acc w,
    for_each (xs ++ ys) body acc w
    = let o := for_each xs body acc w in
      match value o with
      | Ok acc' =>
          let o2 := for_each ys body acc' (world o) in
          Outcome (value o2) (world o2) (trace o ++ trace o2)
      | Raise e => Outcome (Raise e) (world o) (trace o)
      end.
Proof.
  induction xs as [|x xs IH]; intros acc w; cbv zeta.
  - cbn. now destruct (for_each ys body acc w).
  - cbn [app]. rewrite !(@for_each_cons Env A S x). cbv zeta.
    destruct (body acc x w) as [[acc'|e] w1 tr1]; cbn [value world trace];
      [|reflexivity].
    rewrite IH. cbv zeta.
    destruct (for_each xs body acc' w1) as [[acc2|e] w2 tr2];
      cbn [value world trace]; [|reflexivity].
    now rewrite app_assoc.
Qed.

(** One turn of the first loop on a node whose images entry, if any, is a
    list, whatever the list holds. *)
Lemma collect_images_listed Env h outputs k node acc (w : Env) :
  dict_get h (lit "outputs") = Some (JDict outputs) ->
  dict_get outputs k = Some node ->
  node_listed node = true ->
  collect_images (JDict h) acc (JStr k) w
  = Outcome (Ok (acc ++ node_images node)) w
      (Log DEBUG (Outputs_key (JStr k))
       :: (if has_images node then []
           else [Log WARNING (Outputs_no_images (JStr k))])).
Proof.
  intros Hout Hk Hnode.
  destruct node as [| | | | | |n]; try discriminate.
  unfold collect_images, node_listed, node_images, has_images, dict_has in *.
  unfold bind, lift, log, ret. cbn.
  rewrite Hout. cbn. rewrite Hk. cbn. unfold dict_has.
  destruct (dict_get n (lit "images")) as [images|] eqn:Ei.
  - destruct images as [| | | | |images|]; try discriminate.
    reflexivity.
  - cbn. now rewrite app_nil_r.
Qed.

Lemma collect_loop_listed Env h outputs :
  dict_get h (lit "outputs") = Some (JDict outputs) ->
  forall entries,
    (forall k node, In (k, node) entries -> dict_get outputs k = Some node) ->
    outputs_listed entries = true ->
    forall acc (w : Env),
      for_each (map JStr (dict_keys entries)) (collect_images (JDict h)) acc w
      = Outcome (Ok (acc ++ image_refs entries)) w (collect_trace entries).
Proof.
  intros Hout. induction entries as [|[k node] entries IH]; intros Hget Hok acc w.
  - cbn. now rewrite app_nil_r.
  - cbn [outputs_listed forallb snd] in Hok.
    apply andb_true_iff in Hok as [Hnode Hok].
    assert (Hk : dict_get outputs k = Some node) by (apply Hget; now left).
    assert (IH' := fun acc w =>
                     IH (fun k node H => Hget k node (or_intror H)) Hok acc w).
    clear IH.
    cbn [dict_keys map fst].
    rewrite (@for_each_cons Env json (list json) (JStr k)).
    rewrite (collect_images_listed Env h outputs k node acc w Hout Hk Hnode).
    cbv zeta. cbn [value world trace]. fold (dict_keys entries). rewrite IH'.
    cbn [value world trace]. unfold image_refs, collect_trace.
    cbn [flat_map fst snd]. now rewrite <- app_assoc.
Qed.

Lemma fetch_image_not_dict Env
    (httpx_send : Request -> Env -> result Response * Env) self acc image w :
  is_dict image = false ->
  fetch_image httpx_send self acc image w = Outcome (Raise TypeError) w [].
Proof.
  intros Hd. unfold fetch_image, image_fields.
  destruct image; try discriminate; reflexivity.
Qed.

(** X14.  Only a missing filename is forgiven.  On a record whose nodes
    are objects with, at most, a list under "images": when some entry of
    some images list is not an object (a bare file name, a number, null),
    [get_job_outputs] raises [TypeError] on reaching it, provided the
    downloads of the entries before it, in the order of the nodes and of
    their lists, succeeded; those entries have been downloaded, their
    tuples are lost with the exception, and no entry after it is looked
    at. *)
Theorem get_job_outputs_entry_not_an_object Env
    (httpx_send : Request -> Env -> result Response * Env)
    self (h outputs : pydict) before bad after w l :
  dict_get h (lit "outputs") = Some (JDict outputs) ->
  dict_wf outputs ->
  outputs_listed outputs = true ->
  image_refs outputs = before ++ bad :: after ->
  forallb is_dict before = true ->
  is_dict bad = false ->
  value (download_each httpx_send self (choose image_ref before) w) = Ok l ->
  value (get_job_outputs httpx_send self (JDict h) w) = Raise TypeError
  /\ requests (trace (get_job_outputs httpx_send self (JDict h) w))
     = view_requests self (choose image_ref before).
Proof.
  intros Hout Hwf Hlisted Hrefs Hbefore Hbad Hl.
  pose proof (collect_loop_listed Env h outputs Hout outputs
                (fun k node H => @dict_get_entry outputs k node Hwf H)
                Hlisted [] w) as Hc.
  pose proof (@fetch_loop Env httpx_send self before Hbefore [] w) as Hf.
  cbv zeta in Hf. destruct Hf as [Hv [Hw [Hr _]]].
  rewrite Hl in Hv. cbn [app] in Hv.
  pose proof (download_each_done Env httpx_send self (choose image_ref before)
                w l Hl) as Hreq.
  unfold get_job_outputs.
  unfold bind, lift, raise. cbn [contains]. unfold dict_has. rewrite Hout.
  cbn [negb getitem iter]. rewrite Hout. cbn [iter]. rewrite Hc.
  unfold ret. cbv beta iota. cbn [app]. rewrite Hrefs.
  rewrite for_each_app. cbv zeta.
  destruct (for_each before (fetch_image httpx_send self) [] w)
    as [v1 w1 tr1]; cbn [value world trace] in *. subst v1.
  rewrite (@for_each_cons Env json (list output) bad after). cbv zeta.
  rewrite (fetch_image_not_dict Env httpx_send self l bad w1 Hbad).
  cbn [value world trace app].
  rewrite app_nil_r. split; [reflexivity|].
  rewrite (@requests_app (collect_trace outputs) tr1).
  now rewrite (@collect_trace_requests outputs), Hr, Hreq.
Qed.

Lemma get_job_outputs_entry_not_an_object_witness :
  value (get_job_outputs (Demo.server JNull) Demo.client
           (JDict [(lit "outputs", JDict Demo.bad_outputs)]) 0)
  = Raise TypeError.
Proof.
  assert (Hwf : dict_wf Demo.bad_outputs) by dict_wf_tac.
  apply (get_job_outputs_entry_not_an_object nat (Demo.server JNull) Demo.client
           [(lit "outputs", JDict Demo.bad_outputs)] Demo.bad_outputs
           [Demo.image "a.png"; JDict Demo.bare_image] (JStr (lit "c.png")) [] 0
           [(JStr (lit "output"), JStr (lit ""), JStr (lit "a.png"), Demo.png);
            (JStr (lit "output"), JStr (lit ""), JStr (lit "b.png"), Demo.png)]
           eq_refl Hwf eq_refl eq_refl eq_refl eq_refl eq_refl).
Defined.

(** ** The polling loop *)

Lemma choose_app A B (f : A -> option B) (l1 l2 : list A) :
  choose f (l1 ++ l2) = choose f l1 ++ choose f l2.
Proof.
  induction l1 as [|x l1 IH]; cbn [choose app]; [reflexivity|].
  destruct (f x); cbn [app]; now rewrite IH.
Qed.

Lemma lib_events_map_Lib (tr : list event) : lib_events (map Lib tr) = tr.
Proof.
  unfold lib_events. induction tr as [|e tr IH]; cbn [map choose]; congruence.
Qed.

Lemma sleeps_map_Lib (tr : list event) : sleeps (map Lib tr) = [].
Proof. unfold sleeps. induction tr as [|e tr IH]; cbn [map choose]; auto. Qed.

Lemma writes_map_Lib (tr : list event) : writes (map Lib tr) = [].
Proof. unfold writes. induction tr as [|e tr IH]; cbn [map filter is_write]; auto. Qed.

Lemma waitings_map_Lib (tr : list event) : waitings (map Lib tr) = [].
Proof. unfold waitings. induction tr as [|e tr IH]; cbn [map filter]; auto. Qed.

(** One turn of the loop, read through the run of [query_job] it makes. *)
Lemma poll_cons Env (httpx_send : Request -> Env -> result Response * Env)
    (sleep : Z -> Env -> Env) (save : pystr -> list byte -> Env -> bool * Env)
    client p interval intervals w :
  poll httpx_send sleep save client p (interval :: intervals) w
  = if (interval <? 0)%Z
    then Script_outcome (Failed (Raised ValueError)) w []
    else
      let q := query_job httpx_send client p (sleep interval w) in
      let quit e := Script_outcome (Failed (Raised e)) (world q)
                      (Sleep interval :: map Lib (trace q)) in
      match value q with
      | Raise e => quit e
      | Ok status =>
          match rbind (getitem status (JStr (lit "status")))
                  (fun state => getitem state (JStr (lit "completed"))) with
          | Raise e => quit e
          | Ok completed =>
              if truthy completed then
                let f := finish httpx_send save client status (world q) in
                Script_outcome (s_value f) (s_world f)
                  (Sleep interval :: map Lib (trace q) ++ s_trace f)
              else
                let o := poll httpx_send sleep save client p intervals (world q) in
                Script_outcome (s_value o) (s_world o)
                  (Sleep interval :: map Lib (trace q)
                     ++ Print_waiting :: s_trace o)
          end
      end.
Proof.
  cbn [poll]. unfold sbind at 1. unfold time_sleep.
  destruct (interval <? 0)%Z; [reflexivity|].
  cbv zeta. unfold sbind at 1. unfold call.
  destruct (query_job httpx_send client p (sleep interval w)) as [[status|e] w1 tr1];
    cbn [value world trace]; [|reflexivity].
  unfold sbind at 1.
  destruct (getitem status (JStr (lit "status"))) as [state|e];
    cbn [eval rbind]; unfold sret, sraise;
    [|cbn [app]; rewrite ?app_nil_r; reflexivity].
  unfold sbind at 1.
  destruct (getitem state (JStr (lit "completed"))) as [completed|e];
    cbn [eval]; unfold sret, sraise;
    [|cbn [app]; rewrite ?app_nil_r; reflexivity].
  destruct (truthy completed).
  - destruct (finish httpx_send save client status w1) as [v w2 tr2].
    cbn [s_value s_world s_trace app]. reflexivity.
  - unfold sbind, print_waiting.
    destruct (poll httpx_send sleep save client p intervals w1) as [v w2 tr2].
    cbn [s_value s_world s_trace app]. reflexivity.
Qed.

Lemma filter_none A (f : A -> bool) (l : list A) :
  Forall (fun x => f x = false) l -> filter f l = [].
Proof.
  induction 1 as [|x l Hx _ IH]; cbn [filter]; [reflexivity|].
  now rewrite Hx.
Qed.

Lemma for_each_trace Env A S (P : event -> Prop) (body : S -> A -> M Env S) :
  (forall s x w, Forall P (trace (body s x w))) ->
  forall xs s w, Forall P (trace (for_each xs body s w)).
Proof.
  intros Hbody. induction xs as [|x xs IH]; intros s w.
  - constructor.
  - rewrite (@for_each_cons Env A S x xs body s w). cbv zeta.
    specialize (Hbody s x w).
    destruct (body s x w) as [[s'|e] w1 tr1]; cbn [value world trace] in *;
      [|exact Hbody].
    apply Forall_app. split; [exact Hbody | apply IH].
Qed.

(** [query_job] logs its entry once per call; the other methods never log
    it. *)
Lemma query_job_entry Env
    (httpx_send : Request -> Env -> result Response * Env) self p w :
  filter is_query_entry (trace (query_job httpx_send self p w))
  = [Log DEBUG (Query_entry p)].
Proof.
  unfold query_job, bind, httpx_get, httpx_request, log, lift,
    raise_for_status, response_json, ret, raise.
  destruct (httpx_send _ w) as [[r|e] w2]; [|reflexivity].
  destruct (is_success r); [|reflexivity].
  destruct (json_value r) as [j|]; [|reflexivity].
  destruct (keys j); [|reflexivity].
  destruct (contains p j) as [[|]|]; try reflexivity.
Qed.

Lemma download_output_no_entry Env
    (httpx_send : Request -> Env -> result Response * Env) self f s t w :
  Forall (fun e => is_query_entry e = false)
         (trace (download_output httpx_send self f s t w)).
Proof.
  unfold download_output, bind, httpx_request, log, raise_for_status, ret, raise.
  destruct (httpx_send _ w) as [[r|e] w2]; [|repeat constructor].
  destruct (is_success r); repeat constructor.
Qed.

Lemma get_job_outputs_no_entry Env
    (httpx_send : Request -> Env -> result Response * Env) self history w :
  filter is_query_entry (trace (get_job_outputs httpx_send self history w)) = [].
Proof.
  apply filter_none.
  assert (Hcollect : forall acc key (w : Env),
             Forall (fun e => is_query_entry e = false)
                    (trace (collect_images history acc key w))).
  { intros acc key w0. unfold collect_images, bind, lift, log, ret.
    repeat (cbv beta iota;
            match goal with
            | |- context [match ?x with _ => _ end] =>
                lazymatch x with
                | context [match _ with _ => _ end] => fail
                | _ => destruct x
                end
            end);
      cbn [trace app]; repeat constructor. }
  assert (Hfetch : forall acc image (w : Env),
             Forall (fun e => is_query_entry e = false)
                    (trace (fetch_image httpx_send self acc image w))).
  { intros acc image w0. unfold fetch_image.
    destruct (image_fields image) as [[[f s] t]|e].
    - unfold bind, ret.
      pose proof (download_output_no_entry Env httpx_send self f s t w0) as Hd.
      destruct (download_output httpx_send self f s t w0) as [[data|e] w1 tr1];
        cbn [trace] in *; [|exact Hd].
      now rewrite app_nil_r.
    - destruct e; repeat constructor. }
  unfold get_job_outputs, bind, lift, raise, log, ret.
  destruct (contains (lit "outputs") history) as [[|]|]; cbn [negb];
    try (repeat constructor).
  destruct (getitem history (JStr (lit "outputs"))) as [outputs|];
    [|repeat constructor].
  destruct (iter outputs) as [ks|]; [|repeat constructor].
  pose proof (for_each_trace Env json (list json) _ _ Hcollect ks [] w) as H1.
  destruct (for_each ks (collect_images history) [] w) as [[images|e] w1 tr1];
    cbn [trace] in *; [|exact H1].
  pose proof (for_each_trace Env json (list output) _ _ Hfetch images [] w1) as H2.
  destruct (for_each images (fetch_image httpx_send self) [] w1)
    as [[data|e] w2 tr2]; cbn [trace app] in *.
  - apply Forall_app. split; [exact H1|].
    apply Forall_app. split; [exact H2 | repeat constructor].
  - apply Forall_app. split; assumption.
Qed.

(** The events of one turn: the wait, what [query_job] did, and what
    follows. *)
Lemma turn_sleeps i (tr1 : list event) X :
  sleeps (Sleep i :: map Lib tr1 ++ X) = i :: sleeps X.
Proof.
  unfold sleeps. cbn [choose]. rewrite choose_app.
  fold (sleeps (map Lib tr1)). now rewrite sleeps_map_Lib.
Qed.

Lemma turn_lib_events i (tr1 : list event) X :
  lib_events (Sleep i :: map Lib tr1 ++ X) = tr1 ++ lib_events X.
Proof.
  unfold lib_events. cbn [choose]. rewrite choose_app.
  fold (lib_events (map Lib tr1)). now rewrite lib_events_map_Lib.
Qed.

Lemma turn_queries i (tr1 : list event) X :
  queries (Sleep i :: map Lib tr1 ++ X) = filter is_query_entry tr1 ++ queries X.
Proof. unfold queries. now rewrite turn_lib_events, filter_app. Qed.

Lemma turn_writes i (tr1 : list event) X :
  writes (Sleep i :: map Lib tr1 ++ X) = writes X.
Proof.
  unfold writes. cbn [filter is_write]. rewrite filter_app.
  fold (writes (map Lib tr1)). now rewrite writes_map_Lib.
Qed.

Lemma turn_waitings i (tr1 : list event) X :
  waitings (Sleep i :: map Lib tr1 ++ X) = waitings X.
Proof.
  unfold waitings. cbn [filter]. rewrite filter_app.
  fold (waitings (map Lib tr1)). now rewrite waitings_map_Lib.
Qed.

(** What the completed branch can leave in the trace: no wait, no query,
    no "Waiting", and at most one file, written last. *)
Lemma finish_trace Env (httpx_send : Request -> Env -> result Response * Env)
    (save : pystr -> list byte -> Env -> bool * Env) client status w :
  let tr := s_trace (finish httpx_send save client status w) in
  sleeps tr = [] /\ queries tr = [] /\ waitings tr = []
  /\ exists tr0,
       writes tr0 = []
       /\ (tr = tr0 \/ exists data, tr = tr0 ++ [Write_file (lit "tiger.png") data]).
Proof.
  cbv zeta. unfold finish, sbind, eval, call, first_output,
    print_outputs, write_file, sret, sraise.
  destruct (getitem status (JStr (lit "status"))) as [state|e];
    [|cbn; repeat split; auto; exists []; auto].
  destruct (getitem state (JStr (lit "status_str"))) as [status_str|e];
    [|cbn; repeat split; auto; exists []; auto].
  destruct (is_str (lit "success") status_str);
    [|cbn; repeat split; auto; exists []; auto].
  pose proof (get_job_outputs_no_entry Env httpx_send client status w) as Hq.
  destruct (get_job_outputs httpx_send client status w) as [[outputs|e] w1 tr1];
    cbn [trace s_trace app] in *.
  - destruct outputs as [|[[[t s] f] data] outputs]; cbv beta iota;
      cbn [s_trace app snd].
    + rewrite ?app_nil_r.
      rewrite sleeps_map_Lib, waitings_map_Lib. unfold queries.
      rewrite lib_events_map_Lib, Hq. repeat split; auto.
      exists (map Lib tr1). rewrite writes_map_Lib. auto.
    + destruct (save (lit "tiger.png") data w1) as [ok w2].
      cbn [s_trace app].
      unfold sleeps, queries, waitings, lib_events.
      rewrite !choose_app, !filter_app.
      fold (sleeps (map Lib tr1)). fold (lib_events (map Lib tr1)).
      fold (waitings (map Lib tr1)).
      rewrite sleeps_map_Lib, lib_events_map_Lib, waitings_map_Lib, Hq.
      repeat split; auto.
      exists (map Lib tr1 ++ [Print_outputs t s f]). split.
      * unfold writes. rewrite filter_app. fold (writes (map Lib tr1)).
        now rewrite writes_map_Lib.
      * right. exists data. now rewrite <- app_assoc.
  - rewrite sleeps_map_Lib, waitings_map_Lib. unfold queries.
    rewrite lib_events_map_Lib, Hq. repeat split; auto.
    exists (map Lib tr1). rewrite writes_map_Lib. auto.
Qed.

Lemma total_firstn_le (l : list Z) :
  Forall (fun i => (0 <= i)%Z) l ->
  forall n, (0 <= total (firstn n l) <= total l)%Z.
Proof.
  induction 1 as [|i l Hi _ IH]; intros n.
  - rewrite firstn_nil. cbn. lia.
  - destruct n as [|n]; cbn [firstn total fold_right].
    + specialize (IH 0%nat). cbn [firstn total fold_right] in IH.
      fold (total l). lia.
    + fold (total (firstn n l)). fold (total l). specialize (IH n). lia.
Qed.

Lemma ticks_map_Lib (tr : list event) :
  ticks (map Lib tr) = map (fun _ => Queried) (filter is_query_entry tr).
Proof.
  unfold ticks. induction tr as [|e tr IH]; [reflexivity|].
  cbn [map choose filter].
  destruct e as [lvl msg|rq]; [|exact IH].
  destruct lvl; destruct msg; cbn [is_query_entry map]; now rewrite ?IH.
Qed.

Lemma turn_ticks i (tr1 : list event) X :
  ticks (Sleep i :: map Lib tr1 ++ X)
  = Waited i :: map (fun _ => Queried) (filter is_query_entry tr1) ++ ticks X.
Proof.
  unfold ticks at 1. cbn [choose]. rewrite choose_app.
  fold (ticks (map Lib tr1)). fold (ticks X). now rewrite ticks_map_Lib.
Qed.

(** A stretch of the run without wait and without query has no tick. *)
Lemma ticks_quiet (tr : list script_event) :
  sleeps tr = [] -> queries tr = [] -> ticks tr = [].
Proof.
  unfold sleeps, queries, lib_events, ticks.
  induction tr as [|e tr IH]; [reflexivity|].
  cbn [choose]. destruct e as [e'|s|t s f| |name data]; try exact IH.
  - cbn [filter]. intros Hs Hq.
    destruct e' as [lvl msg|rq]; [|now apply IH].
    destruct lvl; destruct msg; cbn [is_query_entry] in Hq;
      try discriminate; now apply IH.
  - discriminate.
Qed.

(** X15.  The loop is bounded by its list of intervals and goes turn by
    turn: for some [n], the waits of a run are the first [n] intervals in
    order, it calls [query_job] [n] times, and waits and calls alternate,
    each wait being followed by one call before the next wait; when no
    interval is negative the time waited is at most the sum of the
    intervals (280 seconds and 8 queries for [RETRIES]). *)
Theorem poll_is_bounded Env
    (httpx_send : Request -> Env -> result Response * Env)
    (sleep : Z -> Env -> Env) (save : pystr -> list byte -> Env -> bool * Env)
    client p intervals :
  forall w,
    let tr := s_trace (poll httpx_send sleep save client p intervals w) in
    (exists n, (n <= List.length intervals)%nat
               /\ sleeps tr = firstn n intervals
               /\ List.length (queries tr) = n
               /\ ticks tr = turns (firstn n intervals))
    /\ (Forall (fun i => (0 <= i)%Z) intervals ->
        (total (sleeps tr) <= total intervals)%Z).
Proof.
  assert (Hn : forall w,
             exists n, (n <= List.length intervals)%nat
                       /\ sleeps (s_trace (poll httpx_send sleep save client p
                                             intervals w)) = firstn n intervals
                       /\ List.length
                            (queries (s_trace (poll httpx_send sleep save client p
                                                 intervals w))) = n
                       /\ ticks (s_trace (poll httpx_send sleep save client p
                                            intervals w))
                          = turns (firstn n intervals)).
  { induction intervals as [|i intervals IH]; intros w.
    - exists 0%nat. cbn. auto.
    - rewrite poll_cons. destruct (i <? 0)%Z.
      + exists 0%nat. cbn. repeat split; auto. lia.
      + cbv zeta.
        pose proof (query_job_entry Env httpx_send client p (sleep i w)) as Hq.
        destruct (query_job httpx_send client p (sleep i w)) as [[status|e] w1 tr1];
          cbn [value world trace] in *.
        * destruct (rbind _ _) as [completed|e].
          -- destruct (truthy completed).
             ++ destruct (finish_trace Env httpx_send save client status w1)
                  as [Hs [Hqf _]].
                cbv zeta in Hs, Hqf. cbn [s_trace].
                exists 1%nat.
                rewrite turn_sleeps, turn_queries, turn_ticks, Hs, Hqf, Hq,
                  (ticks_quiet _ Hs Hqf).
                cbn. repeat split; auto. lia.
             ++ destruct (IH w1) as [n [Hle [Hs [Hc Ht]]]]. cbn [s_trace].
                exists (S n). rewrite turn_sleeps, turn_queries, turn_ticks, Hq.
                unfold sleeps, queries, lib_events, ticks in *. cbn [choose].
                rewrite Hs, Ht. cbn [app List.length firstn map turns flat_map].
                rewrite Hc. repeat split; auto. lia.
          -- cbv beta. cbn [s_trace].
             exists 1%nat. rewrite <- (app_nil_r (map Lib tr1)).
             rewrite turn_sleeps, turn_queries, turn_ticks, Hq.
             cbn. repeat split; auto. lia.
        * cbv beta. cbn [s_trace].
          exists 1%nat. rewrite <- (app_nil_r (map Lib tr1)).
          rewrite turn_sleeps, turn_queries, turn_ticks, Hq.
          cbn. repeat split; auto. lia. }
  intros w. cbv zeta. split; [apply Hn|].
  intros Hpos. destruct (Hn w) as [n [_ [Hs _]]]. rewrite Hs.
  now apply total_firstn_le.
Qed.

Lemma poll_is_bounded_witness :
  (total (sleeps (s_trace (poll (Demo.server (Demo.job false "")) Demo.sleep
                             Demo.save Demo.client (lit "abc123") RETRIES
                             0%nat)))
   <= 280)%Z.
Proof.
  apply (proj2 (poll_is_bounded nat (Demo.server (Demo.job false "")) Demo.sleep
                  Demo.save Demo.client (lit "abc123") RETRIES 0%nat)).
  unfold RETRIES. repeat constructor; lia.
Defined.

(** X16.  A run of the loop writes at most one file, "tiger.png", and the
    write is the last thing the run does. *)
Theorem poll_writes_one_file_last Env
    (httpx_send : Request -> Env -> result Response * Env)
    (sleep : Z -> Env -> Env) (save : pystr -> list byte -> Env -> bool * Env)
    client p intervals :
  forall w,
    exists tr0,
      writes tr0 = []
      /\ (s_trace (poll httpx_send sleep save client p intervals w) = tr0
          \/ exists data,
               s_trace (poll httpx_send sleep save client p intervals w)
               = tr0 ++ [Write_file (lit "tiger.png") data]).
Proof.
  induction intervals as [|i intervals IH]; intros w.
  - exists []. cbn. auto.
  - rewrite poll_cons. destruct (i <? 0)%Z; [exists []; cbn; auto|].
    cbv zeta.
    destruct (query_job httpx_send client p (sleep i w)) as [[status|e] w1 tr1];
      cbn [value world trace].
    + destruct (rbind _ _) as [completed|e].
      * destruct (truthy completed); cbn [s_trace].
        -- destruct (finish_trace Env httpx_send save client status w1)
             as [_ [_ [_ [tr0 [H0 Htr]]]]].
           exists (Sleep i :: map Lib tr1 ++ tr0). rewrite turn_writes.
           split; [exact H0|].
           destruct Htr as [->|[data ->]]; [now left|right].
           exists data. cbn [app]. now rewrite app_assoc.
        -- destruct (IH w1) as [tr0 [H0 Htr]].
           exists (Sleep i :: map Lib tr1 ++ Print_waiting :: tr0).
           rewrite turn_writes. split; [exact H0|].
           destruct Htr as [->|[data ->]]; [now left|right].
           exists data. cbn [app]. now rewrite <- app_assoc.
      * cbv beta. cbn [s_trace].
        exists (Sleep i :: map Lib tr1 ++ []). rewrite turn_writes.
        split; [reflexivity|]. left. now rewrite app_nil_r.
    + cbv beta. cbn [s_trace].
      exists (Sleep i :: map Lib tr1 ++ []). rewrite turn_writes.
      split; [reflexivity|]. left. now rewrite app_nil_r.
Qed.

(** The completed branch, read through the run of [get_job_outputs] it
    makes. *)
Lemma finish_run Env (httpx_send : Request -> Env -> result Response * Env)
    (save : pystr -> list byte -> Env -> bool * Env) client status w state ss :
  getitem status (JStr (lit "status")) = Ok state ->
  getitem state (JStr (lit "status_str")) = Ok ss ->
  finish httpx_send save client status w
  = if is_str (lit "success") ss then
      let g := get_job_outputs httpx_send client status w in
      match value g with
      | Raise e => Script_outcome (Failed (Raised e)) (world g) (map Lib (trace g))
      | Ok [] =>
          Script_outcome (Failed (Raised IndexError)) (world g) (map Lib (trace g))
      | Ok ((t, s, f, data) :: _) =>
          let a := save (lit "tiger.png") data (world g) in
          Script_outcome (if fst a then Done tt else Failed OSError) (snd a)
            (map Lib (trace g)
               ++ [Print_outputs t s f; Write_file (lit "tiger.png") data])
      end
    else Script_outcome (Failed AssertionError) w [].
Proof.
  intros Hstate Hss.
  unfold finish, sbind, eval, call, first_output, print_outputs, write_file,
    sret, sraise.
  rewrite Hstate. cbv beta iota. rewrite Hss. cbv beta iota.
  destruct (is_str (lit "success") ss); [|reflexivity].
  cbv beta iota zeta.
  destruct (get_job_outputs httpx_send client status w) as [[outputs|e] w1 tr1];
    cbn [value world trace]; [|reflexivity].
  destruct outputs as [|[[[t s] f] data] outputs]; cbv beta iota;
    [now rewrite app_nil_r|].
  cbn [snd]. destruct (save (lit "tiger.png") data w1) as [ok w2].
  reflexivity.
Qed.

(** X17.  A job that is never reported completed: when every answer to
    the history request shows the job unfinished and no interval is
    negative, the loop waits through all the intervals, queries once and
    prints "Waiting" once per interval, downloads nothing, writes no file,
    and ends without raising: the script gives up silently. *)
Theorem poll_of_unfinished_job Env
    (httpx_send : Request -> Env -> result Response * Env)
    (sleep : Z -> Env -> Env) (save : pystr -> list byte -> Env -> bool * Env)
    client p intervals :
  (forall w, exists r,
      fst (httpx_send (history_request client p) w) = Ok r /\ unfinished p r) ->
  Forall (fun i => (0 <= i)%Z) intervals ->
  forall w,
    let o := poll httpx_send sleep save client p intervals w in
    s_value o = Done tt
    /\ sleeps (s_trace o) = intervals
    /\ List.length (waitings (s_trace o)) = List.length intervals
    /\ writes (s_trace o) = []
    /\ requests (lib_events (s_trace o))
       = repeat (Http (history_request client p)) (List.length intervals).
Proof.
  intros Hserver Hpos. induction Hpos as [|i intervals Hi _ IH]; intros w.
  - cbn. auto.
  - cbv zeta. rewrite poll_cons.
    destruct (Z.ltb_spec i 0) as [Hneg|_]; [lia|]. cbv zeta.
    destruct (Hserver (sleep i w))
      as [r [Hr [Hok [m [status [state [completed [Hj [Hm [Hs [Hc Ht]]]]]]]]]]].
    destruct (query_job_outcome Env httpx_send client p (sleep i w))
      as [_ [Hreq [_ Hv]]].
    cbv zeta in Hreq, Hv. unfold decoded, checked in Hv.
    rewrite Hr, Hok in Hv. cbn [rbind] in Hv. rewrite Hj in Hv.
    cbn [rbind] in Hv. rewrite Hm in Hv.
    destruct (query_job httpx_send client p (sleep i w)) as [v w1 tr1].
    cbn [value world trace] in *. subst v.
    rewrite Hs. cbn [rbind]. rewrite Hc, Ht.
    destruct (IH w1) as [Hv' [Hsl [Hwa [Hwr Hrq]]]].
    cbn [s_value s_world s_trace].
    rewrite turn_sleeps, turn_waitings, turn_writes, turn_lib_events.
    unfold sleeps, waitings, writes, lib_events in *.
    cbn [choose filter is_write List.length repeat].
    rewrite requests_app, Hreq, Hsl, Hwa, Hwr, Hrq. auto.
Qed.

Lemma poll_of_unfinished_job_witness :
  s_value (poll (Demo.server (Demo.job false "")) Demo.sleep Demo.save
             Demo.client (lit "abc123") RETRIES 0) = Done tt
  /\ sleeps (s_trace (poll (Demo.server (Demo.job false "")) Demo.sleep Demo.save
                        Demo.client (lit "abc123") RETRIES 0)) = RETRIES.
Proof.
  assert (H : forall w : nat, exists r,
             fst (Demo.server (Demo.job false "")
                    (history_request Demo.client (lit "abc123")) w) = Ok r
             /\ unfinished (lit "abc123") r).
  { intros w. eexists. split; [reflexivity|]. split; [reflexivity|].
    do 4 eexists. repeat split; reflexivity. }
  assert (Hpos : Forall (fun i => (0 <= i)%Z) RETRIES)
    by (unfold RETRIES; repeat constructor; lia).
  destruct (poll_of_unfinished_job nat (Demo.server (Demo.job false ""))
              Demo.sleep Demo.save Demo.client (lit "abc123") RETRIES H Hpos 0)
    as [Hv [Hs _]].
  split; assumption.
Defined.

(** X18.  No retry on an error.  At any turn of the loop, when the answer
    to the history request does not hold the prompt identifier (or
    [query_job] raises for any other reason), the script ends there with
    that exception: it waits no further interval, although some may be
    left, and writes no file. *)
Theorem poll_stops_on_query_error Env
    (httpx_send : Request -> Env -> result Response * Env)
    (sleep : Z -> Env -> Env) (save : pystr -> list byte -> Env -> bool * Env)
    client p i intervals w :
  (0 <= i)%Z ->
  let q := query_job httpx_send client p (sleep i w) in
  (forall e, value q = Raise e ->
     poll httpx_send sleep save client p (i :: intervals) w
     = Script_outcome (Failed (Raised e)) (world q) (Sleep i :: map Lib (trace q)))
  /\ (forall r m,
        fst (httpx_send (history_request client p) (sleep i w)) = Ok r ->
        is_success r = true ->
        json_value r = Some (JDict m) ->
        dict_get m p = None ->
        s_value (poll httpx_send sleep save client p (i :: intervals) w)
        = Failed (Raised KeyError)
        /\ sleeps (s_trace (poll httpx_send sleep save client p (i :: intervals) w))
           = [i]
        /\ writes (s_trace (poll httpx_send sleep save client p (i :: intervals) w))
           = []).
Proof.
  intros Hi. cbv zeta.
  assert (Hstop : forall e,
             value (query_job httpx_send client p (sleep i w)) = Raise e ->
             poll httpx_send sleep save client p (i :: intervals) w
             = Script_outcome (Failed (Raised e))
                 (world (query_job httpx_send client p (sleep i w)))
                 (Sleep i :: map Lib (trace (query_job httpx_send client p
                                               (sleep i w))))).
  { intros e He. rewrite poll_cons.
    destruct (Z.ltb_spec i 0) as [Hneg|_]; [lia|]. cbv zeta.
    now rewrite He. }
  split; [exact Hstop|].
  intros r m Hr Hok Hj Hm.
  destruct (query_job_outcome Env httpx_send client p (sleep i w))
    as [_ [_ [_ Hv]]].
  cbv zeta in Hv. unfold decoded, checked in Hv.
  rewrite Hr, Hok in Hv. cbn [rbind] in Hv. rewrite Hj in Hv.
  cbn [rbind] in Hv. rewrite Hm in Hv.
  rewrite (Hstop KeyError Hv). cbn [s_value s_trace].
  rewrite <- (app_nil_r (map Lib _)), turn_sleeps, turn_writes. auto.
Qed.

Lemma poll_stops_on_query_error_witness :
  s_value (poll (Demo.server (JDict [])) Demo.sleep Demo.save Demo.client
             (lit "abc123") RETRIES 0) = Failed (Raised KeyError)
  /\ sleeps (s_trace (poll (Demo.server (JDict [])) Demo.sleep Demo.save
                        Demo.client (lit "abc123") RETRIES 0)) = [10%Z].
Proof.
  assert (H10 : (0 <= 10)%Z) by lia.
  destruct (proj2 (poll_stops_on_query_error nat (Demo.server (JDict []))
                     Demo.sleep Demo.save Demo.client (lit "abc123") 10
                     [10; 20; 30; 40; 50; 60; 60]%Z 0 H10)
              _ [] eq_refl eq_refl eq_refl eq_refl) as [Hv [Hs _]].
  split; assumption.
Defined.

(** One turn of the loop on a record that reports the job completed. *)
Lemma poll_completed Env
    (httpx_send : Request -> Env -> result Response * Env)
    (sleep : Z -> Env -> Env) (save : pystr -> list byte -> Env -> bool * Env)
    client p i intervals w status state completed :
  (0 <= i)%Z ->
  value (query_job httpx_send client p (sleep i w)) = Ok status ->
  getitem status (JStr (lit "status")) = Ok state ->
  getitem state (JStr (lit "completed")) = Ok completed ->
  truthy completed = true ->
  let q := query_job httpx_send client p (sleep i w) in
  let f := finish httpx_send save client status (world q) in
  poll httpx_send sleep save client p (i :: intervals) w
  = Script_outcome (s_value f) (s_world f)
      (Sleep i :: map Lib (trace q) ++ s_trace f).
Proof.
  intros Hi Hq Hs Hc Ht. cbv zeta. rewrite poll_cons.
  destruct (Z.ltb_spec i 0) as [Hneg|_]; [lia|]. cbv zeta.
  rewrite Hq, Hs. cbn [rbind]. now rewrite Hc, Ht.
Qed.

(** X19.  At any turn of the loop, a job reported completed whose
    [status_str] is not the string "success" ends the script with the
    failed [assert], before [get_job_outputs] is called: nothing is
    downloaded, printed or written. *)
Theorem poll_asserts_success Env
    (httpx_send : Request -> Env -> result Response * Env)
    (sleep : Z -> Env -> Env) (save : pystr -> list byte -> Env -> bool * Env)
    client p i intervals w status state completed status_str :
  (0 <= i)%Z ->
  value (query_job httpx_send client p (sleep i w)) = Ok status ->
  getitem status (JStr (lit "status")) = Ok state ->
  getitem state (JStr (lit "completed")) = Ok completed ->
  truthy completed = true ->
  getitem state (JStr (lit "status_str")) = Ok status_str ->
  is_str (lit "success") status_str = false ->
  poll httpx_send sleep save client p (i :: intervals) w
  = Script_outcome (Failed AssertionError)
      (world (query_job httpx_send client p (sleep i w)))
      (Sleep i :: map Lib (trace (query_job httpx_send client p (sleep i w)))).
Proof.
  intros Hi Hq Hs Hc Ht Hss Hne.
  rewrite (poll_completed Env httpx_send sleep save client p i intervals w
             status state completed Hi Hq Hs Hc Ht).
  cbv zeta.
  rewrite (finish_run Env httpx_send save client status _ state status_str Hs Hss).
  rewrite Hne. cbn [s_value s_world s_trace]. now rewrite app_nil_r.
Qed.

Lemma poll_asserts_success_witness :
  s_value (poll (Demo.server (Demo.job true "error")) Demo.sleep Demo.save
             Demo.client (lit "abc123") RETRIES 0) = Failed AssertionError.
Proof.
  assert (H10 : (0 <= 10)%Z) by lia.
  unfold RETRIES.
  rewrite (poll_asserts_success nat (Demo.server (Demo.job true "error"))
             Demo.sleep Demo.save Demo.client (lit "abc123") 10
             [10; 20; 30; 40; 50; 60; 60]%Z 0 _ _ _ _
             H10 eq_refl eq_refl eq_refl eq_refl eq_refl eq_refl).
  reflexivity.
Defined.

(** X20.  At any turn of the loop, a job reported completed with status
    "success" for which [get_job_outputs] returns no tuple (a record
    without image references, or whose references all lack a filename)
    ends the script with [IndexError], raised by [outputs[0]]: nothing is
    printed and no file is written. *)
Theorem poll_without_outputs Env
    (httpx_send : Request -> Env -> result Response * Env)
    (sleep : Z -> Env -> Env) (save : pystr -> list byte -> Env -> bool * Env)
    client p i intervals w status state completed status_str :
  (0 <= i)%Z ->
  value (query_job httpx_send client p (sleep i w)) = Ok status ->
  getitem status (JStr (lit "status")) = Ok state ->
  getitem state (JStr (lit "completed")) = Ok completed ->
  truthy completed = true ->
  getitem state (JStr (lit "status_str")) = Ok status_str ->
  is_str (lit "success") status_str = true ->
  let q := query_job httpx_send client p (sleep i w) in
  let g := get_job_outputs httpx_send client status (world q) in
  value g = Ok [] ->
  poll httpx_send sleep save client p (i :: intervals) w
  = Script_outcome (Failed (Raised IndexError)) (world g)
      (Sleep i :: map Lib (trace q) ++ map Lib (trace g)).
Proof.
  intros Hi Hq Hs Hc Ht Hss Hok. cbv zeta. intros Hg.
  rewrite (poll_completed Env httpx_send sleep save client p i intervals w
             status state completed Hi Hq Hs Hc Ht).
  cbv zeta.
  rewrite (finish_run Env httpx_send save client status _ state status_str Hs Hss).
  rewrite Hok. cbv zeta. rewrite Hg. reflexivity.
Qed.

Lemma poll_without_outputs_witness :
  s_value (poll (Demo.server
                   (JDict [(lit "abc123",
                            JDict [(lit "status",
                                    JDict [(lit "completed", JBool true);
                                           (lit "status_str", JStr (lit "success"))]);
                                   (lit "outputs", JDict [])])]))
             Demo.sleep Demo.save Demo.client (lit "abc123") RETRIES 0)
  = Failed (Raised IndexError).
Proof.
  assert (H10 : (0 <= 10)%Z) by lia.
  unfold RETRIES.
  rewrite (poll_without_outputs nat
             (Demo.server
                (JDict [(lit "abc123",
                         JDict [(lit "status",
                                 JDict [(lit "completed", JBool true);
                                        (lit "status_str", JStr (lit "success"))]);
                                (lit "outputs", JDict [])])]))
             Demo.sleep Demo.save Demo.client (lit "abc123") 10
             [10; 20; 30; 40; 50; 60; 60]%Z 0 _ _ _ _
             H10 eq_refl eq_refl eq_refl eq_refl eq_refl eq_refl eq_refl).
  reflexivity.
Defined.

(** X21.  At any turn of the loop, a job reported completed with status
    "success" for which [get_job_outputs] returns at least one tuple ends
    the loop there: the script prints the first tuple's type, subfolder and
    filename, writes the first tuple's bytes to "tiger.png" and stops; the
    other tuples, although downloaded, are dropped, the intervals left are
    not waited, and the run ends normally unless the write fails. *)
Theorem poll_saves_first_image Env
    (httpx_send : Request -> Env -> result Response * Env)
    (sleep : Z -> Env -> Env) (save : pystr -> list byte -> Env -> bool * Env)
    client p i intervals w status state completed status_str t s f data others :
  (0 <= i)%Z ->
  value (query_job httpx_send client p (sleep i w)) = Ok status ->
  getitem status (JStr (lit "status")) = Ok state ->
  getitem state (JStr (lit "completed")) = Ok completed ->
  truthy completed = true ->
  getitem state (JStr (lit "status_str")) = Ok status_str ->
  is_str (lit "success") status_str = true ->
  let q := query_job httpx_send client p (sleep i w) in
  let g := get_job_outputs httpx_send client status (world q) in
  value g = Ok ((t, s, f, data) :: others) ->
  poll httpx_send sleep save client p (i :: intervals) w
  = Script_outcome
      (if fst (save (lit "tiger.png") data (world g)) then Done tt
       else Failed OSError)
      (snd (save (lit "tiger.png") data (world g)))
      (Sleep i :: map Lib (trace q) ++ map Lib (trace g)
         ++ [Print_outputs t s f; Write_file (lit "tiger.png") data]).
Proof.
  intros Hi Hq Hs Hc Ht Hss Hok. cbv zeta. intros Hg.
  rewrite (poll_completed Env httpx_send sleep save client p i intervals w
             status state completed Hi Hq Hs Hc Ht).
  cbv zeta.
  rewrite (finish_run Env httpx_send save client status _ state status_str Hs Hss).
  rewrite Hok. cbv zeta. rewrite Hg. reflexivity.
Qed.

Lemma poll_saves_first_image_witness :
  s_value (poll (Demo.server (Demo.job true "success")) Demo.sleep Demo.save
             Demo.client (lit "abc123") RETRIES 0) = Done tt
  /\ writes (s_trace (poll (Demo.server (Demo.job true "success")) Demo.sleep
                        Demo.save Demo.client (lit "abc123") RETRIES 0))
     = [Write_file (lit "tiger.png") Demo.png].
Proof.
  assert (H10 : (0 <= 10)%Z) by lia.
  unfold RETRIES.
  rewrite (poll_saves_first_image nat (Demo.server (Demo.job true "success"))
             Demo.sleep Demo.save Demo.client (lit "abc123") 10
             [10; 20; 30; 40; 50; 60; 60]%Z 0 _ _ _ _
             (JStr (lit "output")) (JStr (lit "")) (JStr (lit "ComfyUI_00001_.png"))
             Demo.png []
             H10 eq_refl eq_refl eq_refl eq_refl eq_refl eq_refl eq_refl).
  split; reflexivity.
Defined.
